(** * Drafts: validation, persistence and change events

    A shallow embedding of [zerver/lib/drafts.py]: the semantic validator
    [further_validated_draft_dict], the access guard [draft_endpoint] and the
    three mutation operations [do_create_drafts], [do_edit_draft] and
    [do_delete_draft].

    Exceptions are values of [Exn]; the table of drafts, the wall clock and
    the calls that leave the process (store writes, published events) live in
    a [World] that is threaded through a small state-and-exception monad. *)

From Stdlib Require Import ZArith String Ascii List Bool Lia.
From Stdlib Require Import Floats.SpecFloat.
From stdpp Require Import gmap strings list.

Local Open Scope string_scope.
Local Open Scope Z_scope.

(** ** Numbers: Python [int] and [float] *)

(** A binary64 value is a [spec_float] with 53 bits of precision. *)
Definition prec : Z := 53.
Definition emax : Z := 1024.

Inductive PyNum :=
| PyInt (z : Z)
| PyFloat (f : spec_float).

Definition float_zero : spec_float := S754_zero false.

(** [timestamp < 0], the right operand being the integer literal [0]. *)
Definition num_lt0 (x : PyNum) : bool :=
  match x with
  | PyInt z => z <? 0
  | PyFloat f => SFltb f float_zero
  end.

(** [timestamp >= 0]. *)
Definition num_ge0 (x : PyNum) : bool :=
  match x with
  | PyInt z => 0 <=? z
  | PyFloat f => SFleb float_zero f
  end.

(** Nearest integer to [n / d] for [0 <= n] and [0 < d], ties to even. *)
Definition div_half_even (n d : Z) : Z :=
  let q := n / d in
  let r := n mod d in
  match 2 * r ?= d with
  | Lt => q
  | Gt => q + 1
  | Eq => if Z.even q then q else q + 1
  end.

(** The magnitude [m * 2^e] scaled by [10^6] and rounded to an integer. *)
Definition scaled_micros (m : positive) (e : Z) : Z :=
  match e with
  | Zneg k => div_half_even (Zpos m * 1000000) (2 ^ Zpos k)
  | _ => Zpos m * 2 ^ e * 1000000
  end.

(** [float.__round__(x, 6)]: the decimal with six fractional digits nearest
    to [x] (ties to even), read back as the nearest binary64.  Zeros,
    infinities and NaN round to themselves, and the sign of [x] is kept
    when the result is zero. *)
Definition float_round6 (f : spec_float) : spec_float :=
  match f with
  | S754_finite s m e =>
      match scaled_micros m e with
      | Zpos p => SFdiv prec emax (S754_finite s p 0) (S754_finite false 1000000 0)
      | _ => S754_zero s
      end
  | _ => f
  end.

(** [round(timestamp, 6)]: an [int] is returned unchanged. *)
Definition round6 (x : PyNum) : PyNum :=
  match x with
  | PyInt z => PyInt z
  | PyFloat f => PyFloat (float_round6 f)
  end.

(** ** Data model *)

(** Modelled from the spec: the [datetime] class is not part of the module;
    a point in time is its number of microseconds since the Unix epoch. *)
Definition datetime : Type := Z.

(** Modelled from the spec: the models [UserProfile], [Stream],
    [Subscription] and [Recipient] are defined outside the module; each is
    kept to its key and the fields the module reads.  A realm is named by
    its key. *)
Module UserProfile.
Record t := {
  id : Z;
  realm : Z;
  enable_drafts_synchronization : bool;
}.
End UserProfile.

Module Stream.
Record t := {
  id : Z;
  recipient_id : Z;
}.
End Stream.

Module Subscription.
Record t := { id : Z }.
End Subscription.

Module Recipient.
Record t := { id : Z }.
End Recipient.

(** The draft dict that [draft_dict_validator] accepts: four required keys
    and the optional key [timestamp]. *)
Module DraftDict.
Record t := {
  type : string;
  to : list Z;
  topic : string;
  content : string;
  timestamp : option PyNum;
}.
End DraftDict.

(** The dict that [further_validated_draft_dict] returns. *)
Module ValidDraftDict.
Record t := {
  recipient_id : option Z;
  topic : string;
  content : string;
  last_edit_time : datetime;
}.
End ValidDraftDict.

(** Modelled from the spec: the [Draft] model of [zerver.models] is not part
    of the module; an instance has the fields of the spec's data model, and
    its [id] is [None] until the store assigns one. *)
Module Draft.
Record t := {
  id : option Z;
  user_profile : UserProfile.t;
  recipient_id : option Z;
  topic : string;
  content : string;
  last_edit_time : datetime;
}.

Definition with_id (k : Z) (d : t) : t :=
  {| id := Some k;
     user_profile := user_profile d;
     recipient_id := recipient_id d;
     topic := topic d;
     content := content d;
     last_edit_time := last_edit_time d |}.
End Draft.

Definition VALID_DRAFT_TYPES : gset string := {[ ""; "private"; "stream" ]}.

(** ** Exceptions *)

(** Modelled from the spec: the exceptions of the collaborators are defined
    outside the module; these are the failures their interfaces name. *)
Inductive Raised :=
| NotFound
| PermissionDenied
| ValidationError (messages : list string).

(** What a call into this module may raise: the exceptions the module
    raises itself, and [Passed e] for an exception [e] that was raised
    inside a collaborator and left uncaught. *)
Inductive Exn :=
| JsonableError (msg : string)
| ResourceNotFoundError (msg : string)
| IndexError
| Passed (e : Raised).

Definition InvalidTimestamp : Exn := JsonableError "Timestamp must not be negative.".
Definition InvalidTopic : Exn := JsonableError "Topic must not contain null bytes".
Definition InvalidRecipientCount : Exn :=
  JsonableError "Must specify exactly 1 stream ID for stream messages".
Definition SyncDisabled : Exn := JsonableError "User has disabled synchronizing drafts.".
Definition DraftNotFound : Exn := ResourceNotFoundError "Draft does not exist".

(** ** Collaborators *)

(** Modelled from the spec: the functions this module imports from
    [zerver.lib] and the [Draft.to_dict] method are defined outside the
    module, so each is taken as given.  As in the spec, [normalize_body],
    [truncate_topic] and [timestamp_to_datetime] are plain functions and the
    three lookups may fail. *)
Class Collaborators := {
  payload : Type;
  normalize_body : string -> string;
  truncate_topic : string -> string;
  timestamp_to_datetime : PyNum -> datetime;
  access_stream_by_id :
    UserProfile.t -> Z -> Raised + (Stream.t * option Subscription.t);
  get_user_profiles_by_ids : gset Z -> Z -> Raised + list UserProfile.t;
  recipient_for_user_profiles :
    list UserProfile.t -> bool -> option UserProfile.t -> UserProfile.t ->
    Raised + Recipient.t;
  to_dict : Draft.t -> payload;
}.

(** ** The world *)

Inductive Event {C : Collaborators} :=
| DraftsAdd (drafts : list payload)
| DraftsUpdate (draft : payload)
| DraftsRemove (draft_id : option Z).

(** Calls that leave the process, in the order they are made. *)
Inductive Effect {C : Collaborators} :=
| BulkCreate (objs : list Draft.t)
| Save (obj : Draft.t)
| Delete (obj : Draft.t)
| SendEvent (realm : Z) (event : Event) (users : list Z).

Record World {C : Collaborators} := {
  drafts : gmap Z Draft.t;          (* the table behind [Draft.objects] *)
  next_id : Z;                      (* the next primary key of the table *)
  wall_clock : nat -> spec_float;   (* what the n-th [time.time()] returns *)
  clock_reads : nat;                (* how many times the clock was read *)
  effects : list Effect;
}.

(** ** State and exceptions *)

Definition M {C : Collaborators} (A : Type) : Type := World -> (Exn + A) * World.

Definition ret {C : Collaborators} {A} (a : A) : M A := fun w => (inr a, w).
Definition raise {C : Collaborators} {A} (e : Exn) : M A := fun w => (inl e, w).
Definition bind {C : Collaborators} {A B} (m : M A) (k : A -> M B) : M B :=
  fun w =>
    match m w with
    | (inl e, w') => (inl e, w')
    | (inr a, w') => k a w'
    end.

(** A collaborator's exception passes through unchanged. *)
Definition call {C : Collaborators} {A} (r : Raised + A) : M A :=
  match r with
  | inl e => raise (Passed e)
  | inr a => ret a
  end.

Notation "x <- m ; k" := (bind m (fun x => k))
  (at level 20, m at level 100, k at level 200, only parsing).
Notation "' pat <- m ; k" := (bind m (fun x => match x with pat => k end))
  (at level 20, pat pattern, m at level 100, k at level 200, only parsing).

(** ** The clock, the store and the event queue *)

Section Primitives.
Context {C : Collaborators}.

Definition set_clock_reads (n : nat) (w : World) : World :=
  {| drafts := drafts w; next_id := next_id w; wall_clock := wall_clock w;
     clock_reads := n; effects := effects w |}.

Definition set_store (m : gmap Z Draft.t) (k : Z) (w : World) : World :=
  {| drafts := m; next_id := k; wall_clock := wall_clock w;
     clock_reads := clock_reads w; effects := effects w |}.

Definition record (e : Effect) (w : World) : World :=
  {| drafts := drafts w; next_id := next_id w; wall_clock := wall_clock w;
     clock_reads := clock_reads w; effects := effects w ++ [e] |}.

(** [time.time()]: the next reading of the wall clock. *)
Definition time_time : M spec_float :=
  fun w => (inr (wall_clock w (clock_reads w)), set_clock_reads (S (clock_reads w)) w).

(** Modelled from the spec: the store's [get_one(id, owner)], which the
    module calls as [Draft.objects.get(id=draft_id, user_profile=user_profile)].
    It gives the row with that primary key if its owner is [user_profile],
    built into an instance that carries the key; [None] stands for
    [Draft.DoesNotExist]. *)
Definition objects_get (draft_id : Z) (user_profile : UserProfile.t) (w : World)
  : option Draft.t :=
  match drafts w !! draft_id with
  | Some row =>
      if UserProfile.id (Draft.user_profile row) =? UserProfile.id user_profile
      then Some (Draft.with_id draft_id row)
      else None
  | None => None
  end.

(** The instances of a grouped insert, with consecutive keys from [k]. *)
Fixpoint assign_ids (k : Z) (objs : list Draft.t) : list Draft.t :=
  match objs with
  | [] => []
  | obj :: rest => Draft.with_id k obj :: assign_ids (k + 1) rest
  end.

Fixpoint insert_rows (k : Z) (objs : list Draft.t) (m : gmap Z Draft.t)
  : gmap Z Draft.t :=
  match objs with
  | [] => m
  | obj :: rest => insert_rows (k + 1) rest (<[k := Draft.with_id k obj]> m)
  end.

(** Modelled from the spec: the store's [insert_many(entities)], which the
    module calls as [Draft.objects.bulk_create(objs)]: one grouped insert
    that returns the instances with their keys set. *)
Definition bulk_create (objs : list Draft.t) : M (list Draft.t) :=
  fun w =>
    let created := assign_ids (next_id w) objs in
    (inr created,
     record (BulkCreate created)
       (set_store (insert_rows (next_id w) objs (drafts w))
                  (next_id w + Z.of_nat (length objs)) w)).

(** Modelled from the spec: the store's [save(entity)], called as
    [obj.save()]: update the row of the instance's key, or insert the
    instance under a fresh key when it has none. *)
Definition save (obj : Draft.t) : M unit :=
  fun w =>
    match Draft.id obj with
    | Some k => (inr tt, record (Save obj) (set_store (<[k := obj]> (drafts w)) (next_id w) w))
    | None =>
        let obj' := Draft.with_id (next_id w) obj in
        (inr tt, record (Save obj')
                   (set_store (<[next_id w := obj']> (drafts w)) (next_id w + 1) w))
    end.

(** Modelled from the spec: the store's [delete(entity)], called as
    [obj.delete()]: remove the row of the instance's key (an instance
    without a key has no row). *)
Definition delete_obj (obj : Draft.t) : M unit :=
  fun w =>
    match Draft.id obj with
    | Some k => (inr tt, record (Delete obj) (set_store (delete k (drafts w)) (next_id w) w))
    | None => (inr tt, record (Delete obj) w)
    end.

(** Modelled from the spec: the event channel's
    [publish(audience_org, event, recipient_user_ids)], called as
    [send_event(realm, event, users)]. *)
Definition send_event (realm : Z) (event : Event) (users : list Z) : M unit :=
  fun w => (inr tt, record (SendEvent realm event users) w).
End Primitives.

(** ** The module *)

(** ["\0" in s] *)
Fixpoint contains_null (s : string) : bool :=
  match s with
  | EmptyString => false
  | String c rest => Ascii.eqb c "000"%char || contains_null rest
  end.

Section Drafts.
Context {C : Collaborators}.

Definition further_validated_draft_dict
    (draft_dict : DraftDict.t) (user_profile : UserProfile.t)
  : M ValidDraftDict.t :=
  let content := normalize_body (DraftDict.content draft_dict) in
  now <- time_time;
  let timestamp :=
    match DraftDict.timestamp draft_dict with
    | Some t => t
    | None => PyFloat now
    end in
  let timestamp := round6 timestamp in
  if num_lt0 timestamp then raise (JsonableError "Timestamp must not be negative.")
  else
    let last_edit_time := timestamp_to_datetime timestamp in
    let to := DraftDict.to draft_dict in
    '(topic, recipient_id) <-
      (if String.eqb (DraftDict.type draft_dict) "stream" then
         let topic := truncate_topic (DraftDict.topic draft_dict) in
         if contains_null topic
         then raise (JsonableError "Topic must not contain null bytes")
         else if negb (Nat.eqb (length to) 1)
         then raise (JsonableError "Must specify exactly 1 stream ID for stream messages")
         else
           match to with
           | [] => raise IndexError
           | to_0 :: _ =>
               '(stream, sub) <- call (access_stream_by_id user_profile to_0);
               ret (topic, Some (Stream.recipient_id stream))
           end
       else if String.eqb (DraftDict.type draft_dict) "private"
               && negb (Nat.eqb (length to) 0)
       then
         to_users <- call (get_user_profiles_by_ids
                             (list_to_set to) (UserProfile.realm user_profile));
         match recipient_for_user_profiles to_users false None user_profile with
         | inr recipient => ret ("", Some (Recipient.id recipient))
         | inl (ValidationError messages) =>
             match messages with
             | m :: _ => raise (JsonableError m)
             | [] => raise IndexError
             end
         | inl e => raise (Passed e)
         end
       else ret ("", None));
    ret {| ValidDraftDict.recipient_id := recipient_id;
           ValidDraftDict.topic := topic;
           ValidDraftDict.content := content;
           ValidDraftDict.last_edit_time := last_edit_time |}.

Definition draft_endpoint {Request Args Response : Type}
    (view_func : Request -> UserProfile.t -> Args -> M Response)
  : Request -> UserProfile.t -> Args -> M Response :=
  fun request user_profile args =>
    if negb (UserProfile.enable_drafts_synchronization user_profile)
    then raise (JsonableError "User has disabled synchronizing drafts.")
    else view_func request user_profile args.

Definition new_draft (user_profile : UserProfile.t) (valid_draft_dict : ValidDraftDict.t)
  : Draft.t :=
  {| Draft.id := None;
     Draft.user_profile := user_profile;
     Draft.recipient_id := ValidDraftDict.recipient_id valid_draft_dict;
     Draft.topic := ValidDraftDict.topic valid_draft_dict;
     Draft.content := ValidDraftDict.content valid_draft_dict;
     Draft.last_edit_time := ValidDraftDict.last_edit_time valid_draft_dict |}.

(** The [for] loop of [do_create_drafts], from its accumulator so far. *)
Fixpoint append_validated (draft_dicts : list DraftDict.t) (user_profile : UserProfile.t)
    (draft_objects : list Draft.t) : M (list Draft.t) :=
  match draft_dicts with
  | [] => ret draft_objects
  | draft_dict :: rest =>
      valid_draft_dict <- further_validated_draft_dict draft_dict user_profile;
      append_validated rest user_profile
        (draft_objects ++ [new_draft user_profile valid_draft_dict])
  end.

Definition do_create_drafts (draft_dicts : list DraftDict.t) (user_profile : UserProfile.t)
  : M (list Draft.t) :=
  draft_objects <- append_validated draft_dicts user_profile [];
  created_draft_objects <- bulk_create draft_objects;
  let event := DraftsAdd (map to_dict created_draft_objects) in
  _ <- send_event (UserProfile.realm user_profile) event [UserProfile.id user_profile];
  ret created_draft_objects.

Definition do_edit_draft (draft_id : Z) (draft_dict : DraftDict.t)
    (user_profile : UserProfile.t) : M unit :=
  fun w =>
    match objects_get draft_id user_profile w with
    | None => raise (ResourceNotFoundError "Draft does not exist") w
    | Some draft_object =>
        (valid_draft_dict <- further_validated_draft_dict draft_dict user_profile;
         let draft_object :=
           {| Draft.id := Draft.id draft_object;
              Draft.user_profile := Draft.user_profile draft_object;
              Draft.recipient_id := ValidDraftDict.recipient_id valid_draft_dict;
              Draft.topic := ValidDraftDict.topic valid_draft_dict;
              Draft.content := ValidDraftDict.content valid_draft_dict;
              Draft.last_edit_time := ValidDraftDict.last_edit_time valid_draft_dict |} in
         _ <- save draft_object;
         let event := DraftsUpdate (to_dict draft_object) in
         send_event (UserProfile.realm user_profile) event [UserProfile.id user_profile]) w
    end.

Definition do_delete_draft (draft_id : Z) (user_profile : UserProfile.t) : M unit :=
  fun w =>
    match objects_get draft_id user_profile w with
    | None => raise (ResourceNotFoundError "Draft does not exist") w
    | Some draft_object =>
        (let draft_id := Draft.id draft_object in
         _ <- delete_obj draft_object;
         let event := DraftsRemove draft_id in
         send_event (UserProfile.realm user_profile) event [UserProfile.id user_profile]) w
    end.
End Drafts.

(** ** Vocabulary of the statements *)

Section Vocabulary.
Context {C : Collaborators}.

(** The world after [n] more readings of the clock. *)
Definition advance (n : nat) (w : World) : World :=
  set_clock_reads (n + clock_reads w) w.

(** The timestamp a call made in [w] works with, before rounding: the
    dict's own, or else the reading of the clock. *)
Definition timestamp_in (draft_dict : DraftDict.t) (w : World) : PyNum :=
  match DraftDict.timestamp draft_dict with
  | Some t => t
  | None => PyFloat (wall_clock w (clock_reads w))
  end.

(** Whether a draft with the given id and owned by the user is stored. *)
Definition owns_draft (user_profile : UserProfile.t) (draft_id : Z) (w : World) : Prop :=
  exists row,
    drafts w !! draft_id = Some row /\
    UserProfile.id (Draft.user_profile row) = UserProfile.id user_profile.

(** The recipient resolver never fails with [msg] as its first message. *)
Definition resolver_never_says (msg : string) : Prop :=
  forall users forwarded forwarder sender messages,
    recipient_for_user_profiles users forwarded forwarder sender
      = inl (ValidationError messages) ->
    head messages <> Some msg.

(** The addressing of a dict names a destination. *)
Definition addressed (draft_dict : DraftDict.t) : Prop :=
  DraftDict.type draft_dict = "stream" \/
  (DraftDict.type draft_dict = "private" /\ DraftDict.to draft_dict <> []).

(** The invariants of a draft's topic and recipient, for the dict the
    draft was made from: the topic is empty unless the dict is of type
    "stream", it has no null byte, and the recipient is set exactly when
    the dict is addressed. *)
Definition well_formed_for (draft_dict : DraftDict.t)
    (topic : string) (recipient_id : option Z) : Prop :=
  (topic <> "" -> DraftDict.type draft_dict = "stream")
  /\ contains_null topic = false
  /\ (is_Some recipient_id <-> addressed draft_dict).
End Vocabulary.

(** Modelled from the spec: the checkers of [zerver.lib.validator] are not
    part of the module.  On a dict whose keys already have their types,
    [draft_dict_validator] asks that [type] is one of the valid draft types
    and that [content] is a non-empty string. *)
Definition draft_dict_validator (draft_dict : DraftDict.t) : bool :=
  bool_decide (DraftDict.type draft_dict ∈ VALID_DRAFT_TYPES)
  && negb (String.eqb (DraftDict.content draft_dict) "").

(** ** A sample installation *)

Module Sample.
Definition alice : UserProfile.t :=
  {| UserProfile.id := 1; UserProfile.realm := 1;
     UserProfile.enable_drafts_synchronization := true |}.
Definition bob : UserProfile.t :=
  {| UserProfile.id := 2; UserProfile.realm := 1;
     UserProfile.enable_drafts_synchronization := false |}.

(** Stream 42 is open to everyone and has recipient 7; stream 43 is
    closed; no other stream exists. *)
Definition access_stream (u : UserProfile.t) (stream_id : Z)
  : Raised + (Stream.t * option Subscription.t) :=
  if stream_id =? 42 then inr ({| Stream.id := 42; Stream.recipient_id := 7 |}, None)
  else if stream_id =? 43 then inl PermissionDenied
  else inl NotFound.

Definition get_users (ids : gset Z) (realm : Z)
  : Raised + list UserProfile.t :=
  if bool_decide (ids ⊆ {[1; 2]})
  then inr (map (fun i => {| UserProfile.id := i; UserProfile.realm := realm;
                             UserProfile.enable_drafts_synchronization := true |})
                (elements ids))
  else inl NotFound.

Definition to_datetime (t : PyNum) : datetime :=
  match t with
  | PyInt z => z * 1000000
  | PyFloat (S754_finite s m e) =>
      if s then - scaled_micros m e else scaled_micros m e
  | PyFloat _ => 0
  end.

#[export] Instance collaborators : Collaborators := {|
  payload := Draft.t;
  normalize_body := fun s => s;
  truncate_topic := fun s => String.substring 0 60 s;
  timestamp_to_datetime := to_datetime;
  access_stream_by_id := access_stream;
  get_user_profiles_by_ids := get_users;
  recipient_for_user_profiles := fun users _ _ _ =>
    inr {| Recipient.id := 100 + Z.of_nat (length users) |};
  to_dict := fun d => d;
|}.

(** An empty store whose clock reads 1.5, then -1.0, then 1.5 again. *)
Definition world : World :=
  {| drafts := ∅; next_id := 1;
     wall_clock := fun n =>
       match n with
       | 1%nat => S754_finite true 4503599627370496 (-52)
       | _ => S754_finite false 6755399441055744 (-52)
       end;
     clock_reads := 0; effects := [] |}.

(** A draft of alice, stored under key 5. *)
Definition stored : Draft.t :=
  {| Draft.id := Some 5; Draft.user_profile := alice; Draft.recipient_id := None;
     Draft.topic := ""; Draft.content := "old"; Draft.last_edit_time := 0 |}.

Definition world_one : World :=
  {| drafts := {[ 5 := stored ]}; next_id := 6;
     wall_clock := fun _ => S754_finite false 6755399441055744 (-52);
     clock_reads := 0; effects := [] |}.

(** -1e-7 as a binary64. *)
Definition minus_1e_7 : spec_float := S754_finite true 7555786372591432 (-76).

Definition stream_draft (topic : string) (to : list Z) (timestamp : option PyNum)
  : DraftDict.t :=
  {| DraftDict.type := "stream"; DraftDict.to := to; DraftDict.topic := topic;
     DraftDict.content := "hi"; DraftDict.timestamp := timestamp |}.

Definition private_draft (to : list Z) (timestamp : option PyNum) : DraftDict.t :=
  {| DraftDict.type := "private"; DraftDict.to := to; DraftDict.topic := "";
     DraftDict.content := "hi"; DraftDict.timestamp := timestamp |}.
End Sample.

(** ** Further vocabulary *)

(** The dict [draft_dict] with [to] as its list of ids. *)
Definition with_to (to : list Z) (draft_dict : DraftDict.t) : DraftDict.t :=
  {| DraftDict.type := DraftDict.type draft_dict;
     DraftDict.to := to;
     DraftDict.topic := DraftDict.topic draft_dict;
     DraftDict.content := DraftDict.content draft_dict;
     DraftDict.timestamp := DraftDict.timestamp draft_dict |}.

(** The instance [obj] after an edit has assigned it the four fields of a
    validated dict; its key and its owner stay. *)
Definition overwritten (obj : Draft.t) (v : ValidDraftDict.t) : Draft.t :=
  {| Draft.id := Draft.id obj;
     Draft.user_profile := Draft.user_profile obj;
     Draft.recipient_id := ValidDraftDict.recipient_id v;
     Draft.topic := ValidDraftDict.topic v;
     Draft.content := ValidDraftDict.content v;
     Draft.last_edit_time := ValidDraftDict.last_edit_time v |}.

Section Traces.
Context {C : Collaborators}.

(** A write to the store, as opposed to a published event. *)
Definition is_store_write (e : Effect) : Prop :=
  match e with
  | BulkCreate _ | Save _ | Delete _ => True
  | SendEvent _ _ _ => False
  end.

(** What one operation of [user_profile] may add to the effects: nothing,
    or one write to the store followed by one event that is published in
    the user's realm to the user alone. *)
Definition one_write_one_event (user_profile : UserProfile.t) (added : list Effect)
  : Prop :=
  added = [] \/
  exists write event,
    is_store_write write /\
    added = [write;
             SendEvent (UserProfile.realm user_profile) event
               [UserProfile.id user_profile]].
End Traces.

(** ** A second sample installation *)

Module Sample2.
(** As [Sample.collaborators], but the recipient resolver refuses groups of
    more than one user. *)
#[export] Instance strict : Collaborators := {|
  payload := Draft.t;
  normalize_body := fun s => s;
  truncate_topic := fun s => String.substring 0 60 s;
  timestamp_to_datetime := Sample.to_datetime;
  access_stream_by_id := Sample.access_stream;
  get_user_profiles_by_ids := Sample.get_users;
  recipient_for_user_profiles := fun users _ _ _ =>
    if (1 <? length users)%nat
    then inl (ValidationError ["Too many recipients"; "Try again"])
    else inr {| Recipient.id := 100 + Z.of_nat (length users) |};
  to_dict := fun d => d;
|}.

Definition strict_world : @World strict :=
  {| drafts := ∅; next_id := 1;
     wall_clock := fun _ => S754_finite false 6755399441055744 (-52);
     clock_reads := 0; effects := [] |}.

(** A draft of bob, stored under key 6 beside the draft of alice. *)
Definition stored_bob : Draft.t :=
  {| Draft.id := Some 6; Draft.user_profile := Sample.bob; Draft.recipient_id := None;
     Draft.topic := ""; Draft.content := "bob's"; Draft.last_edit_time := 0 |}.

Definition world_two : @World Sample.collaborators :=
  {| drafts := {[ 5 := Sample.stored; 6 := stored_bob ]}; next_id := 7;
     wall_clock := fun _ => S754_finite false 6755399441055744 (-52);
     clock_reads := 0; effects := [] |}.
End Sample2.

(** * Properties *)

Example round6_a : float_round6 (S754_finite false 7130316796323511 (-22)) = S754_finite false 7130316796323512 (-22).
Proof. vm_compute. reflexivity. Qed.
Example round6_b : float_round6 (S754_finite false 4503601879170310 (-52)) = S754_finite false 4503604130970123 (-52).
Proof. vm_compute. reflexivity. Qed.
Example round6_c : float_round6 (S754_finite false 4722366482869645 (-73)) = S754_zero false.
Proof. vm_compute. reflexivity. Qed.
Example round6_d : float_round6 (S754_finite false 7205759403792794 (-56)) = S754_finite false 7205759403792794 (-56).
Proof. vm_compute. reflexivity. Qed.
Example round6_e : float_round6 (S754_finite true 7555786372591432 (-76)) = S754_zero true.
Proof. vm_compute. reflexivity. Qed.



(** ** Rounding and the sign test *)

Lemma binary_round_aux_sign s m e l :
  SFltb (binary_round_aux prec emax s m e l) float_zero = true -> s = true.
Proof.
  unfold binary_round_aux.
  destruct (shr_fexp prec emax m e l) as [mrs1 e1].
  destruct (shr_fexp prec emax _ e1 loc_Exact) as [mrs2 e2].
  destruct (shr_m mrs2); [| destruct (_ <=? _) |]; destruct s; cbn; congruence.
Qed.

Lemma float_round6_sign f :
  SFltb (float_round6 f) float_zero = true -> SFltb f float_zero = true.
Proof.
  destruct f as [s | s | | s m e]; cbn; try congruence.
  destruct (scaled_micros m e) as [| p | p].
  - destruct s; cbn; congruence.
  - cbn. destruct (SFdiv_core_binary prec emax (Z.pos p) 0 1000000 0) as [[mz ez] lz].
    intros H. apply binary_round_aux_sign in H.
    destruct s; [reflexivity | discriminate].
  - destruct s; cbn; congruence.
Qed.

Lemma round6_lt0 t : num_lt0 (round6 t) = true -> num_lt0 t = true.
Proof. destruct t as [z | f]; cbn; [tauto | apply float_round6_sign]. Qed.

Lemma ge0_not_lt0 t : num_ge0 t = true -> num_lt0 t = false.
Proof.
  destruct t as [z | f]; cbn.
  - lia.
  - unfold SFleb, SFltb. destruct f as [s | s | | s m e]; cbn; try congruence;
      destruct s; cbn; congruence.
Qed.

Lemma round6_ge0 t : num_ge0 t = true -> num_lt0 (round6 t) = false.
Proof.
  intros H. apply ge0_not_lt0 in H.
  destruct (num_lt0 (round6 t)) eqn:E; [| reflexivity].
  apply round6_lt0 in E. congruence.
Qed.

(** ** The semantic validator *)

Ltac run :=
  unfold further_validated_draft_dict, call, bind, time_time, raise, ret in *;
  cbn [fst snd] in *.

Ltac cases :=
  repeat match goal with
         | |- context [match ?x with _ => _ end] =>
             lazymatch x with
             | context [match _ with _ => _ end] => fail
             | _ => destruct x eqn:?
             end
         end.

Section Validator.
Context {C : Collaborators}.
Implicit Types (d : DraftDict.t) (u : UserProfile.t) (w : World).

(** A call reads the clock once and touches nothing else. *)
Lemma fvdd_world d u w :
  snd (further_validated_draft_dict d u w) = advance 1 w.
Proof. run. cases; reflexivity. Qed.

(** The outcome depends on the world through the timestamp alone. *)
Lemma fvdd_timestamp_only d u w w' :
  timestamp_in d w = timestamp_in d w' ->
  fst (further_validated_draft_dict d u w) = fst (further_validated_draft_dict d u w').
Proof.
  unfold timestamp_in. intros H. run. rewrite H. cases; reflexivity.
Qed.

Lemma fvdd_negative d u w :
  num_lt0 (round6 (timestamp_in d w)) = true ->
  fst (further_validated_draft_dict d u w) = inl InvalidTimestamp.
Proof. unfold timestamp_in. intros H. run. rewrite H. reflexivity. Qed.

Lemma fvdd_not_timestamp_error d u w :
  resolver_never_says "Timestamp must not be negative." ->
  num_lt0 (round6 (timestamp_in d w)) = false ->
  fst (further_validated_draft_dict d u w) <> inl InvalidTimestamp.
Proof.
  unfold timestamp_in, InvalidTimestamp. intros Hres H. run. rewrite H.
  cases; cbn; try congruence.
  intros [= ->].
  match goal with
  | E : recipient_for_user_profiles _ _ _ _ = _ |- _ => apply Hres in E; cbn in E
  end.
  congruence.
Qed.

Lemma fvdd_last_edit_time d u w v :
  fst (further_validated_draft_dict d u w) = inr v ->
  ValidDraftDict.last_edit_time v = timestamp_to_datetime (round6 (timestamp_in d w))
  /\ ValidDraftDict.content v = normalize_body (DraftDict.content d).
Proof.
  unfold timestamp_in. run. cases; cbn; intros [= <-]; cbn; auto.
Qed.
End Validator.

Lemma sample_resolver_quiet msg : @resolver_never_says Sample.collaborators msg.
Proof. intros users forwarded forwarder sender messages H. discriminate H. Qed.

(** C1, as amended.  For a draft dict that carries the timestamp [t], the
    timestamp is rounded to six decimals first and the sign is tested on the
    rounded value: the call fails with the timestamp error whenever
    [round(t, 6)] is negative, and only then (as long as the recipient
    resolver does not fail with that very message, which would be passed
    on).  A rejected [t] is negative, for an [int] the test is exactly
    [t < 0], and every [t >= 0] passes the test; the result then carries
    [timestamp_to_datetime (round (t, 6))] as its [last_edit_time]. *)
Theorem timestamp_check `{C : Collaborators}
    (d : DraftDict.t) (u : UserProfile.t) (w : World) (t : PyNum) :
  DraftDict.timestamp d = Some t ->
  (num_lt0 (round6 t) = true ->
   fst (further_validated_draft_dict d u w) = inl InvalidTimestamp)
  /\ (resolver_never_says "Timestamp must not be negative." ->
      fst (further_validated_draft_dict d u w) = inl InvalidTimestamp ->
      num_lt0 (round6 t) = true)
  /\ (num_lt0 (round6 t) = true -> num_lt0 t = true)
  /\ (forall z, t = PyInt z -> num_lt0 (round6 t) = (z <? 0))
  /\ (num_ge0 t = true -> num_lt0 (round6 t) = false)
  /\ (forall v, fst (further_validated_draft_dict d u w) = inr v ->
      ValidDraftDict.last_edit_time v = timestamp_to_datetime (round6 t)).
Proof.
  intros Ht.
  assert (Hin : timestamp_in d w = t) by (unfold timestamp_in; now rewrite Ht).
  repeat split.
  - intros H. apply fvdd_negative. now rewrite Hin.
  - intros Hres Hfail.
    destruct (num_lt0 (round6 t)) eqn:E; [reflexivity | exfalso].
    apply (fvdd_not_timestamp_error d u w Hres); [now rewrite Hin | exact Hfail].
  - apply round6_lt0.
  - intros z ->. reflexivity.
  - apply round6_ge0.
  - intros v Hv. apply fvdd_last_edit_time in Hv. rewrite Hin in Hv. tauto.
Qed.

Lemma timestamp_check_witness :
  let d := Sample.stream_draft "plans" [42] (Some (PyInt (-3))) in
  let d' := Sample.private_draft [1; 2] (Some (PyFloat (S754_finite false 6755399441055744 (-52)))) in
  (DraftDict.timestamp d = Some (PyInt (-3))
   /\ fst (further_validated_draft_dict d Sample.alice Sample.world) = inl InvalidTimestamp
   /\ num_lt0 (PyInt (-3)) = true)
  /\ (num_ge0 (PyFloat (S754_finite false 6755399441055744 (-52))) = true
      /\ fst (further_validated_draft_dict d' Sample.alice Sample.world)
         <> inl InvalidTimestamp
      /\ forall v, fst (further_validated_draft_dict d' Sample.alice Sample.world) = inr v ->
           ValidDraftDict.last_edit_time v = 1500000).
Proof.
  intros d d'. split.
  - destruct (timestamp_check d Sample.alice Sample.world (PyInt (-3)) eq_refl)
      as (Hfail & _ & Hneg & _).
    split; [reflexivity |]. split; [apply Hfail | apply Hneg]; reflexivity.
  - destruct (timestamp_check d' Sample.alice Sample.world _ eq_refl)
      as (_ & Honly & _ & _ & Hge & Hlast).
    split; [reflexivity |]. split.
    + intros Hfail. apply (Honly (sample_resolver_quiet _)) in Hfail.
      rewrite Hge in Hfail; [discriminate Hfail | reflexivity].
    + intros v Hv. rewrite (Hlast v Hv). vm_compute. reflexivity.
Defined.

(** C1 as stated fails: -1e-7 is negative, yet it rounds to -0.0, which is
    not below zero, and the draft is accepted. *)
Lemma timestamp_check_counterexample :
  let t := PyFloat Sample.minus_1e_7 in
  let d := Sample.stream_draft "plans" [42] (Some t) in
  draft_dict_validator d = true
  /\ valid_binary prec emax Sample.minus_1e_7 = true
  /\ num_lt0 t = true
  /\ ~ (fst (further_validated_draft_dict d Sample.alice Sample.world) = inl InvalidTimestamp
        <-> num_lt0 t = true).
Proof.
  cbv zeta. repeat split; try (vm_compute; reflexivity).
  intros [_ H].
  assert (E : num_lt0 (PyFloat Sample.minus_1e_7) = true) by (vm_compute; reflexivity).
  specialize (H E). vm_compute in H. discriminate H.
Qed.

Section Addressing.
Context {C : Collaborators}.
Implicit Types (d : DraftDict.t) (u : UserProfile.t) (w : World).

(** The whole of the stream branch, once the timestamp is accepted. *)
Lemma fvdd_stream d u w :
  DraftDict.type d = "stream" ->
  num_lt0 (round6 (timestamp_in d w)) = false ->
  fst (further_validated_draft_dict d u w) =
    if contains_null (truncate_topic (DraftDict.topic d)) then inl InvalidTopic
    else
      match DraftDict.to d with
      | [stream_id] =>
          match access_stream_by_id u stream_id with
          | inl e => inl (Passed e)
          | inr (stream, _) =>
              inr {| ValidDraftDict.recipient_id := Some (Stream.recipient_id stream);
                     ValidDraftDict.topic := truncate_topic (DraftDict.topic d);
                     ValidDraftDict.content := normalize_body (DraftDict.content d);
                     ValidDraftDict.last_edit_time :=
                       timestamp_to_datetime (round6 (timestamp_in d w)) |}
          end
      | _ => inl InvalidRecipientCount
      end.
Proof.
  unfold timestamp_in. intros Hty Hts. run. rewrite Hts, Hty. cbn.
  destruct (contains_null _); [reflexivity |].
  destruct (DraftDict.to d) as [| stream_id [| ? ?]]; cbn; try reflexivity.
  destruct (access_stream_by_id u stream_id) as [e | [stream sub]]; reflexivity.
Qed.

(** What a successful call returns for the topic and the recipient, by
    the addressing of the dict. *)
Lemma fvdd_success_shape d u w v :
  fst (further_validated_draft_dict d u w) = inr v ->
  (DraftDict.type d = "stream" /\
   ValidDraftDict.topic v = truncate_topic (DraftDict.topic d) /\
   contains_null (ValidDraftDict.topic v) = false /\
   is_Some (ValidDraftDict.recipient_id v))
  \/ (DraftDict.type d <> "stream" /\
      DraftDict.type d = "private" /\ DraftDict.to d <> [] /\
      ValidDraftDict.topic v = "" /\ is_Some (ValidDraftDict.recipient_id v))
  \/ (DraftDict.type d <> "stream" /\
      (DraftDict.type d <> "private" \/ DraftDict.to d = []) /\
      ValidDraftDict.topic v = "" /\ ValidDraftDict.recipient_id v = None).
Proof.
  run. intros H.
  destruct (num_lt0 _); [discriminate H |].
  destruct (String.eqb_spec (DraftDict.type d) "stream") as [Hs | Hs].
  - left. revert H. cases; cbn; intros [= <-]; cbn; eauto.
  - right.
    destruct (String.eqb_spec (DraftDict.type d) "private") as [Hp | Hp]; cbn in *.
    + destruct (DraftDict.to d) as [| x l] eqn:Hto; cbn in *.
      * right. injection H as <-. cbn. auto.
      * left. revert H. cases; cbn; intros [= <-]; cbn; repeat split; eauto; congruence.
    + right. injection H as <-. cbn. auto.
Qed.
End Addressing.

(** C2, as amended.  For a stream-type draft dict whose timestamp is
    accepted and whose [to] is the single id of a stream the acting user
    can access: when the truncated topic contains a null byte the call
    fails with the topic error; otherwise it succeeds, [recipient_id] is
    the recipient id of the accessed stream, and [topic] is the truncated
    raw topic, free of null bytes.  The topic may be empty. *)
Theorem stream_draft_resolved `{C : Collaborators}
    (d : DraftDict.t) (u : UserProfile.t) (w : World)
    (stream_id : Z) (stream : Stream.t) (sub : option Subscription.t) :
  DraftDict.type d = "stream" ->
  num_lt0 (round6 (timestamp_in d w)) = false ->
  DraftDict.to d = [stream_id] ->
  access_stream_by_id u stream_id = inr (stream, sub) ->
  (contains_null (truncate_topic (DraftDict.topic d)) = true ->
   fst (further_validated_draft_dict d u w) = inl InvalidTopic)
  /\ (contains_null (truncate_topic (DraftDict.topic d)) = false ->
      exists v,
        fst (further_validated_draft_dict d u w) = inr v
        /\ ValidDraftDict.recipient_id v = Some (Stream.recipient_id stream)
        /\ ValidDraftDict.topic v = truncate_topic (DraftDict.topic d)
        /\ contains_null (ValidDraftDict.topic v) = false).
Proof.
  intros Hty Hts Hto Hacc.
  pose proof (fvdd_stream d u w Hty Hts) as E. rewrite Hto, Hacc in E.
  split; intros Hnull; rewrite Hnull in E; [exact E |].
  eexists. split; [exact E |]. cbn. auto.
Qed.

Lemma stream_draft_resolved_witness :
  let d := Sample.stream_draft "plans" [42] (Some (PyInt 5)) in
  exists v,
    fst (further_validated_draft_dict d Sample.alice Sample.world) = inr v
    /\ ValidDraftDict.recipient_id v = Some 7
    /\ ValidDraftDict.topic v = "plans"
    /\ contains_null (ValidDraftDict.topic v) = false.
Proof.
  intros d.
  apply (stream_draft_resolved d Sample.alice Sample.world 42
           {| Stream.id := 42; Stream.recipient_id := 7 |} None
           eq_refl eq_refl eq_refl eq_refl).
  reflexivity.
Defined.

(** C2 as stated fails: a stream draft with an empty topic is accepted, and
    the topic of the result is empty. *)
Lemma stream_draft_resolved_counterexample :
  let d := Sample.stream_draft "" [42] (Some (PyInt 5)) in
  draft_dict_validator d = true
  /\ Sample.access_stream Sample.alice 42
       = inr ({| Stream.id := 42; Stream.recipient_id := 7 |}, None)
  /\ exists v,
       fst (further_validated_draft_dict d Sample.alice Sample.world) = inr v
       /\ ValidDraftDict.topic v = "".
Proof.
  cbv zeta. repeat split. eexists. split; [vm_compute; reflexivity | reflexivity].
Qed.

(** C5, as amended.  For a stream-type draft dict whose timestamp is
    accepted and whose truncated topic has no null byte, the call fails with
    the recipient-count error exactly when [to] does not hold exactly one
    id; with exactly one id the stream is resolved: a failure of the
    resolver is passed on unchanged, and otherwise the call succeeds with
    the stream's recipient id. *)
Theorem recipient_count_check `{C : Collaborators}
    (d : DraftDict.t) (u : UserProfile.t) (w : World) :
  DraftDict.type d = "stream" ->
  num_lt0 (round6 (timestamp_in d w)) = false ->
  contains_null (truncate_topic (DraftDict.topic d)) = false ->
  (fst (further_validated_draft_dict d u w) = inl InvalidRecipientCount
   <-> length (DraftDict.to d) <> 1%nat)
  /\ (forall stream_id, DraftDict.to d = [stream_id] ->
      (forall e, access_stream_by_id u stream_id = inl e ->
                 fst (further_validated_draft_dict d u w) = inl (Passed e))
      /\ (forall stream sub, access_stream_by_id u stream_id = inr (stream, sub) ->
          exists v, fst (further_validated_draft_dict d u w) = inr v
                    /\ ValidDraftDict.recipient_id v = Some (Stream.recipient_id stream))).
Proof.
  intros Hty Hts Hnull.
  pose proof (fvdd_stream d u w Hty Hts) as E. rewrite Hnull in E.
  split.
  - rewrite E. destruct (DraftDict.to d) as [| stream_id [| ? ?]]; cbn.
    + split; [discriminate | reflexivity].
    + split; [| congruence].
      destruct (access_stream_by_id u stream_id) as [e | [stream sub]]; discriminate.
    + split; [discriminate | reflexivity].
  - intros stream_id Hto. rewrite Hto in E. split.
    + intros e He. now rewrite He in E.
    + intros stream sub Hs. rewrite Hs in E. eexists. split; [exact E | reflexivity].
Qed.

Lemma recipient_count_check_witness :
  let d := Sample.stream_draft "plans" [42; 43] (Some (PyInt 5)) in
  length (DraftDict.to d) <> 1%nat
  /\ fst (further_validated_draft_dict d Sample.alice Sample.world) = inl InvalidRecipientCount.
Proof.
  intros d. assert (Hlen : length (DraftDict.to d) <> 1%nat) by (cbn; discriminate).
  split; [exact Hlen |].
  apply (recipient_count_check d Sample.alice Sample.world eq_refl eq_refl eq_refl).
  exact Hlen.
Defined.

(** C5 as stated fails: with a negative timestamp, a stream draft that
    names two streams fails with the timestamp error, not with the
    recipient-count error. *)
Lemma recipient_count_check_counterexample :
  let d := Sample.stream_draft "plans" [42; 43] (Some (PyInt (-1))) in
  draft_dict_validator d = true
  /\ DraftDict.type d = "stream"
  /\ contains_null (@truncate_topic Sample.collaborators (DraftDict.topic d)) = false
  /\ fst (further_validated_draft_dict d Sample.alice Sample.world) = inl InvalidTimestamp
  /\ ~ (fst (further_validated_draft_dict d Sample.alice Sample.world)
          = inl InvalidRecipientCount
        <-> length (DraftDict.to d) <> 1%nat).
Proof.
  cbv zeta. repeat split; try (vm_compute; reflexivity).
  intros [_ H]. assert (E : length [42; 43] <> 1%nat) by (cbn; discriminate).
  specialize (H E). vm_compute in H. discriminate H.
Qed.

(** C7.  Behind the guard, a user whose drafts synchronization is off gets
    the guard's error at once: the outcome is the same whatever the wrapped
    view is, and the world is untouched.  With the flag on, the guarded
    view is the wrapped view on the same arguments. *)
Theorem draft_endpoint_guard `{C : Collaborators} {Request Args Response : Type}
    (view_func : Request -> UserProfile.t -> Args -> M Response)
    (request : Request) (u : UserProfile.t) (args : Args) (w : World) :
  (UserProfile.enable_drafts_synchronization u = false ->
   draft_endpoint view_func request u args w = (inl SyncDisabled, w))
  /\ (UserProfile.enable_drafts_synchronization u = true ->
      draft_endpoint view_func request u args w = view_func request u args w).
Proof.
  unfold draft_endpoint. split; intros ->; reflexivity.
Qed.

Lemma draft_endpoint_guard_witness :
  let view := fun (_ : unit) u (draft_id : Z) => do_delete_draft draft_id u in
  draft_endpoint view tt Sample.bob 5 Sample.world_one = (inl SyncDisabled, Sample.world_one)
  /\ draft_endpoint view tt Sample.alice 5 Sample.world_one
     = do_delete_draft 5 Sample.alice Sample.world_one.
Proof.
  intros view. split.
  - apply (draft_endpoint_guard view tt Sample.bob 5 Sample.world_one). reflexivity.
  - apply (draft_endpoint_guard view tt Sample.alice 5 Sample.world_one). reflexivity.
Defined.

(** C8.  With an explicit timestamp the outcome of a call, a result or a
    failure, is the same in every world.  In general the outcome is fixed
    by the reading of the clock, and without a timestamp it does vary with
    it: a negative reading is rejected and a zero reading is not. *)
Theorem explicit_timestamp_deterministic `{C : Collaborators}
    (d : DraftDict.t) (u : UserProfile.t) :
  (forall t w1 w2, DraftDict.timestamp d = Some t ->
     fst (further_validated_draft_dict d u w1) = fst (further_validated_draft_dict d u w2))
  /\ (forall w1 w2, wall_clock w1 (clock_reads w1) = wall_clock w2 (clock_reads w2) ->
        fst (further_validated_draft_dict d u w1)
        = fst (further_validated_draft_dict d u w2))
  /\ (DraftDict.timestamp d = None ->
      resolver_never_says "Timestamp must not be negative." ->
      exists w1 w2,
        fst (further_validated_draft_dict d u w1)
        <> fst (further_validated_draft_dict d u w2)).
Proof.
  split; [| split].
  - intros t w1 w2 Ht. apply fvdd_timestamp_only. unfold timestamp_in. now rewrite Ht.
  - intros w1 w2 Hclock. apply fvdd_timestamp_only. unfold timestamp_in. now rewrite Hclock.
  - intros Ht Hres.
    pose (at_time := fun f : spec_float =>
            {| drafts := ∅; next_id := 1; wall_clock := fun _ => f;
               clock_reads := 0; effects := @nil Effect |}).
    exists (at_time (S754_finite true 4503599627370496 (-52))), (at_time float_zero).
    rewrite (fvdd_negative d u (at_time (S754_finite true 4503599627370496 (-52)))).
    + intros E. symmetry in E. revert E. apply fvdd_not_timestamp_error; [exact Hres |].
      unfold timestamp_in. rewrite Ht. reflexivity.
    + unfold timestamp_in. rewrite Ht. vm_compute. reflexivity.
Qed.

Lemma explicit_timestamp_deterministic_witness :
  let d := Sample.private_draft [1; 2] None in
  exists w1 w2 : @World Sample.collaborators,
    fst (further_validated_draft_dict d Sample.alice w1)
    <> fst (further_validated_draft_dict d Sample.alice w2).
Proof.
  intros d.
  apply (@explicit_timestamp_deterministic Sample.collaborators d Sample.alice);
    [reflexivity | apply sample_resolver_quiet].
Defined.

(** ** The store *)

Section Store.
Context {C : Collaborators}.
Implicit Types (u : UserProfile.t) (w : World) (m : gmap Z Draft.t).

Lemma advance_0 w : advance 0 w = w.
Proof. destruct w; reflexivity. Qed.

Lemma advance_advance i j w : advance i (advance j w) = advance (i + j) w.
Proof. unfold advance, set_clock_reads; cbn. f_equal. lia. Qed.

Lemma insert_rows_below k objs m j :
  j < k -> insert_rows k objs m !! j = m !! j.
Proof.
  revert k m. induction objs as [| obj rest IH]; intros k m Hj; cbn; [reflexivity |].
  rewrite IH by lia. apply lookup_insert_ne. lia.
Qed.

Lemma insert_rows_at k objs m (i : nat) obj :
  objs !! i = Some obj ->
  insert_rows k objs m !! (k + Z.of_nat i) = Some (Draft.with_id (k + Z.of_nat i) obj).
Proof.
  revert k m i. induction objs as [| o rest IH]; intros k m i Hi; [discriminate |].
  destruct i as [| i]; cbn in Hi; cbn [insert_rows].
  - injection Hi as ->. rewrite insert_rows_below by lia.
    rewrite Z.add_0_r. apply lookup_insert_eq.
  - rewrite Nat2Z.inj_succ.
    replace (k + Z.succ (Z.of_nat i)) with ((k + 1) + Z.of_nat i) by lia.
    now apply IH.
Qed.

Lemma assign_ids_lookup k objs (i : nat) :
  assign_ids k objs !! i = Draft.with_id (k + Z.of_nat i) <$> objs !! i.
Proof.
  revert k i. induction objs as [| o rest IH]; intros k i; [reflexivity |].
  destruct i as [| i]; cbn [assign_ids].
  - cbn. now rewrite Z.add_0_r.
  - rewrite Nat2Z.inj_succ. change ((?x :: ?l) !! S i) with (l !! i).
    rewrite IH. do 2 f_equal. lia.
Qed.

Lemma assign_ids_length k objs : length (assign_ids k objs) = length objs.
Proof.
  revert k. induction objs as [| o rest IH]; intros k; cbn; [reflexivity |].
  now rewrite IH.
Qed.

Lemma objects_get_None draft_id u w :
  objects_get draft_id u w = None <-> ~ owns_draft u draft_id w.
Proof.
  unfold objects_get, owns_draft.
  destruct (drafts w !! draft_id) as [row |] eqn:E.
  - destruct (Z.eqb_spec (UserProfile.id (Draft.user_profile row)) (UserProfile.id u))
      as [Heq | Hne].
    + split; [discriminate |]. intros H. exfalso. apply H. eauto.
    + split; [| reflexivity]. intros _ (row' & [= <-] & Hrow). contradiction.
  - split; [| reflexivity]. intros _ (row & Hrow & _). discriminate.
Qed.
End Store.

(** ** Bulk creation *)

Section Create.
Context {C : Collaborators}.
Implicit Types (d : DraftDict.t) (u : UserProfile.t) (w : World).

Lemma fvdd_pair d u w :
  further_validated_draft_dict d u w
  = (fst (further_validated_draft_dict d u w), advance 1 w).
Proof. rewrite <- (fvdd_world d u w). apply surjective_pairing. Qed.

(** The loop fails at the first dict that fails, having stored nothing. *)
Lemma append_validated_fails ds u : forall (i : nat) d e acc w,
  ds !! i = Some d ->
  (forall (j : nat) dj, (j < i)%nat -> ds !! j = Some dj ->
     exists v, fst (further_validated_draft_dict dj u (advance j w)) = inr v) ->
  fst (further_validated_draft_dict d u (advance i w)) = inl e ->
  append_validated ds u acc w = (inl e, advance (S i) w).
Proof.
  induction ds as [| d0 rest IH]; intros i d e acc w Hi Hbefore Hfail; [discriminate |].
  cbn. unfold bind. rewrite (fvdd_pair d0 u w).
  destruct i as [| i]; cbn in Hi.
  - injection Hi as ->. rewrite advance_0 in Hfail. now rewrite Hfail.
  - destruct (Hbefore 0%nat d0) as [v Hv]; [lia | reflexivity |].
    rewrite advance_0 in Hv. rewrite Hv.
    rewrite (IH i d e _ (advance 1 w) Hi).
    + rewrite advance_advance. do 2 f_equal. lia.
    + intros j dj Hj Hdj. rewrite advance_advance.
      replace (j + 1)%nat with (S j) by lia. apply (Hbefore (S j) dj); [lia | exact Hdj].
    + rewrite advance_advance. now replace (i + 1)%nat with (S i) by lia.
Qed.

(** When every dict passes, the loop collects one instance per dict. *)
Lemma append_validated_passes ds u : forall (vs : list ValidDraftDict.t) (acc : list Draft.t) w,
  length vs = length ds ->
  (forall (i : nat) d v, ds !! i = Some d -> vs !! i = Some v ->
     fst (further_validated_draft_dict d u (advance i w)) = inr v) ->
  append_validated ds u acc w
  = (inr (acc ++ map (new_draft u) vs)%list, advance (length ds) w).
Proof.
  induction ds as [| d0 rest IH]; intros vs acc w Hlen Hall.
  - destruct vs; [| discriminate]. cbn. rewrite app_nil_r, advance_0. reflexivity.
  - destruct vs as [| v vs]; [discriminate |]. cbn. unfold bind.
    rewrite (fvdd_pair d0 u w).
    pose proof (Hall 0%nat d0 v eq_refl eq_refl) as Hv. rewrite advance_0 in Hv.
    rewrite Hv. rewrite (IH vs _ (advance 1 w)).
    + rewrite <- app_assoc, advance_advance. cbn. do 2 f_equal. f_equal. lia.
    + cbn in Hlen. lia.
    + intros i d v' Hd Hv'. rewrite advance_advance.
      replace (i + 1)%nat with (S i) by lia. now apply (Hall (S i)).
Qed.
End Create.

(** C3.  The dicts are validated in order, each at its own reading of the
    clock.  If the dict at position [i] is the first to fail, with [e], the
    whole call fails with [e]: no row is stored, no key is used up and
    nothing is inserted or published.  If every dict passes, the instances
    are inserted in one grouped insert under consecutive fresh keys, the rows
    that were there stay as they were, and a single drafts/add event that
    carries the created instances in order is published after the insert;
    the created instances are returned. *)
Theorem create_all_or_nothing `{C : Collaborators}
    (ds : list DraftDict.t) (u : UserProfile.t) (w : World) :
  (forall (i : nat) d e,
     ds !! i = Some d ->
     (forall (j : nat) dj, (j < i)%nat -> ds !! j = Some dj ->
        exists v, fst (further_validated_draft_dict dj u (advance j w)) = inr v) ->
     fst (further_validated_draft_dict d u (advance i w)) = inl e ->
     fst (do_create_drafts ds u w) = inl e
     /\ drafts (snd (do_create_drafts ds u w)) = drafts w
     /\ next_id (snd (do_create_drafts ds u w)) = next_id w
     /\ effects (snd (do_create_drafts ds u w)) = effects w)
  /\ (forall vs : list ValidDraftDict.t,
        length vs = length ds ->
        (forall (i : nat) d v, ds !! i = Some d -> vs !! i = Some v ->
           fst (further_validated_draft_dict d u (advance i w)) = inr v) ->
        let created := assign_ids (next_id w) (map (new_draft u) vs) in
        let w' := snd (do_create_drafts ds u w) in
        fst (do_create_drafts ds u w) = inr created
        /\ effects w'
           = (effects w ++
              [BulkCreate created;
               SendEvent (UserProfile.realm u) (DraftsAdd (map to_dict created))
                 [UserProfile.id u]])%list
        /\ (forall (i : nat) obj, created !! i = Some obj ->
              drafts w' !! (next_id w + Z.of_nat i) = Some obj)
        /\ (forall k, k < next_id w -> drafts w' !! k = drafts w !! k)
        /\ next_id w' = next_id w + Z.of_nat (length ds)).
Proof.
  split.
  - intros i d e Hi Hbefore Hfail. unfold do_create_drafts, bind.
    rewrite (append_validated_fails ds u i d e [] w Hi Hbefore Hfail).
    cbn. auto.
  - intros vs Hlen Hall created w'. subst created w'. unfold do_create_drafts, bind.
    rewrite (append_validated_passes ds u vs [] w Hlen Hall).
    cbn. rewrite <- app_assoc. cbn. repeat split.
    + intros i obj Hobj. rewrite assign_ids_lookup in Hobj.
      destruct (map (new_draft u) vs !! i) as [o |] eqn:Ho; [| discriminate].
      injection Hobj as <-. now apply insert_rows_at.
    + intros k Hk. now apply insert_rows_below.
    + rewrite length_map. lia.
Qed.

Lemma create_all_or_nothing_witness :
  let bad := [Sample.stream_draft "plans" [42] None;
              Sample.private_draft [] (Some (PyInt (-1)))] in
  let good := [Sample.stream_draft "plans" [42] None;
               Sample.private_draft [] (Some (PyInt 3))] in
  (fst (do_create_drafts bad Sample.alice Sample.world) = inl InvalidTimestamp
   /\ drafts (snd (do_create_drafts bad Sample.alice Sample.world)) = drafts Sample.world
   /\ next_id (snd (do_create_drafts bad Sample.alice Sample.world)) = next_id Sample.world
   /\ effects (snd (do_create_drafts bad Sample.alice Sample.world)) = effects Sample.world)
  /\ (exists created,
        fst (do_create_drafts good Sample.alice Sample.world) = inr created
        /\ map Draft.id created = [Some 1; Some 2]
        /\ effects (snd (do_create_drafts good Sample.alice Sample.world))
           = [BulkCreate created;
              SendEvent 1 (DraftsAdd (map (@to_dict Sample.collaborators) created)) [1]]).
Proof.
  intros bad good. split.
  - apply (proj1 (create_all_or_nothing bad Sample.alice Sample.world) 1%nat
             (Sample.private_draft [] (Some (PyInt (-1)))) InvalidTimestamp).
    + reflexivity.
    + intros j dj Hj Hdj. destruct j as [| j]; [| lia].
      injection Hdj as <-. eexists. vm_compute. reflexivity.
    + vm_compute. reflexivity.
  - pose (vs := [ {| ValidDraftDict.recipient_id := Some 7; ValidDraftDict.topic := "plans";
                     ValidDraftDict.content := "hi";
                     ValidDraftDict.last_edit_time := 1500000 |};
                  {| ValidDraftDict.recipient_id := None; ValidDraftDict.topic := "";
                     ValidDraftDict.content := "hi";
                     ValidDraftDict.last_edit_time := 3000000 |} ]).
    destruct (proj2 (create_all_or_nothing good Sample.alice Sample.world) vs eq_refl)
      as (Hres & Heff & _).
    + intros i d v Hd Hv.
      destruct i as [| [| i]]; cbn in Hd, Hv; try discriminate Hd;
        injection Hd as <-; injection Hv as <-; vm_compute; reflexivity.
    + eexists. split; [exact Hres |]. split; [reflexivity | exact Heff].
Defined.

(** C10.  On the empty list the call succeeds: it returns the empty list,
    stores no row and uses up no key, and still makes the grouped insert
    (of nothing) and publishes one drafts/add event with an empty list of
    drafts. *)
Theorem create_empty `{C : Collaborators} (u : UserProfile.t) (w : World) :
  fst (do_create_drafts [] u w) = inr []
  /\ drafts (snd (do_create_drafts [] u w)) = drafts w
  /\ next_id (snd (do_create_drafts [] u w)) = next_id w
  /\ effects (snd (do_create_drafts [] u w))
     = (effects w ++
        [BulkCreate [];
         SendEvent (UserProfile.realm u) (DraftsAdd []) [UserProfile.id u]])%list.
Proof.
  cbn. rewrite <- app_assoc, Z.add_0_r. auto.
Qed.

(** ** Edit and delete *)

Section EditDelete.
Context {C : Collaborators}.
Implicit Types (d : DraftDict.t) (u : UserProfile.t) (w : World).

(** The validator never raises a resource-not-found error. *)
Lemma fvdd_not_resource_error d u w msg :
  fst (further_validated_draft_dict d u w) <> inl (ResourceNotFoundError msg).
Proof. run. cases; cbn; congruence. Qed.

Lemma edit_not_found draft_id d u w :
  objects_get draft_id u w = None ->
  do_edit_draft draft_id d u w = (inl DraftNotFound, w).
Proof. unfold do_edit_draft. now intros ->. Qed.

Lemma delete_not_found draft_id u w :
  objects_get draft_id u w = None ->
  do_delete_draft draft_id u w = (inl DraftNotFound, w).
Proof. unfold do_delete_draft. now intros ->. Qed.

(** What an edit of a stored draft does, by the outcome of validation. *)
Lemma edit_found draft_id d u w obj :
  objects_get draft_id u w = Some obj ->
  do_edit_draft draft_id d u w =
    match fst (further_validated_draft_dict d u w) with
    | inl e => (inl e, advance 1 w)
    | inr v =>
        let obj' :=
          {| Draft.id := Draft.id obj;
             Draft.user_profile := Draft.user_profile obj;
             Draft.recipient_id := ValidDraftDict.recipient_id v;
             Draft.topic := ValidDraftDict.topic v;
             Draft.content := ValidDraftDict.content v;
             Draft.last_edit_time := ValidDraftDict.last_edit_time v |} in
        (inr tt,
         record (SendEvent (UserProfile.realm u) (DraftsUpdate (to_dict obj'))
                   [UserProfile.id u])
           (record (Save obj')
              (set_store (<[draft_id := obj']> (drafts w)) (next_id w) (advance 1 w))))
    end.
Proof.
  intros Hget. unfold do_edit_draft. rewrite Hget. unfold bind.
  rewrite (fvdd_pair d u w). cbn [fst].
  destruct (fst (further_validated_draft_dict d u w)) as [e | v]; [reflexivity |].
  unfold objects_get in Hget.
  destruct (drafts w !! draft_id) as [row |]; [| discriminate].
  destruct (_ =? _); [| discriminate]. injection Hget as <-. reflexivity.
Qed.

(** What a delete of a stored draft does. *)
Lemma delete_found draft_id u w obj :
  objects_get draft_id u w = Some obj ->
  do_delete_draft draft_id u w =
    (inr tt,
     record (SendEvent (UserProfile.realm u) (DraftsRemove (Some draft_id))
               [UserProfile.id u])
       (record (Delete obj)
          (set_store (delete draft_id (drafts w)) (next_id w) w))).
Proof.
  intros Hget. unfold do_delete_draft. rewrite Hget.
  unfold objects_get in Hget.
  destruct (drafts w !! draft_id) as [row |]; [| discriminate].
  destruct (_ =? _); [| discriminate]. injection Hget as <-. reflexivity.
Qed.
End EditDelete.

(** C6.  An edit or a delete fails with the not-found error exactly when
    the acting user owns no draft with the given id.  The failure is the
    same when no row has that id and when the row belongs to another user,
    and it leaves the world as it was: nothing is stored, removed or
    published.  A delete that succeeds removes the row, so deleting the
    same id once more fails with the not-found error. *)
Theorem not_found_iff_not_owned `{C : Collaborators}
    (draft_id : Z) (u : UserProfile.t) (w : World) :
  (forall d, fst (do_edit_draft draft_id d u w) = inl DraftNotFound
             <-> ~ owns_draft u draft_id w)
  /\ (fst (do_delete_draft draft_id u w) = inl DraftNotFound
      <-> ~ owns_draft u draft_id w)
  /\ (drafts w !! draft_id = None ->
      (forall d, do_edit_draft draft_id d u w = (inl DraftNotFound, w))
      /\ do_delete_draft draft_id u w = (inl DraftNotFound, w))
  /\ (forall row, drafts w !! draft_id = Some row ->
      UserProfile.id (Draft.user_profile row) <> UserProfile.id u ->
      (forall d, do_edit_draft draft_id d u w = (inl DraftNotFound, w))
      /\ do_delete_draft draft_id u w = (inl DraftNotFound, w))
  /\ (owns_draft u draft_id w ->
      fst (do_delete_draft draft_id u w) = inr tt
      /\ do_delete_draft draft_id u (snd (do_delete_draft draft_id u w))
         = (inl DraftNotFound, snd (do_delete_draft draft_id u w))).
Proof.
  assert (Hnone : ~ owns_draft u draft_id w ->
                  (forall d, do_edit_draft draft_id d u w = (inl DraftNotFound, w))
                  /\ do_delete_draft draft_id u w = (inl DraftNotFound, w)).
  { intros H. apply objects_get_None in H.
    split; [intros d; now apply edit_not_found | now apply delete_not_found]. }
  split; [| split; [| split; [| split]]].
  - intros d. split.
    + intros Hfail Hown.
      destruct (objects_get draft_id u w) as [obj |] eqn:Hget.
      * rewrite (edit_found draft_id d u w obj Hget) in Hfail.
        destruct (fst (further_validated_draft_dict d u w)) as [e |] eqn:E;
          [| discriminate].
        cbn in Hfail. injection Hfail as ->.
        exact (fvdd_not_resource_error d u w _ E).
      * apply objects_get_None in Hget. contradiction.
    + intros H. destruct (Hnone H) as [He _]. now rewrite He.
  - split.
    + intros Hfail Hown.
      destruct (objects_get draft_id u w) as [obj |] eqn:Hget.
      * rewrite (delete_found draft_id u w obj Hget) in Hfail. discriminate.
      * apply objects_get_None in Hget. contradiction.
    + intros H. destruct (Hnone H) as [_ Hd]. now rewrite Hd.
  - intros Hrow. apply Hnone. intros (row & Hrow' & _). congruence.
  - intros row Hrow Hne. apply Hnone. intros (row' & Hrow' & Heq). congruence.
  - intros Hown.
    destruct (objects_get draft_id u w) as [obj |] eqn:Hget;
      [| apply objects_get_None in Hget; contradiction].
    rewrite (delete_found draft_id u w obj Hget). cbn [fst snd].
    split; [reflexivity |].
    apply delete_not_found. unfold objects_get. cbn. now rewrite lookup_delete_eq.
Qed.

(** C9.  In an edit the lookup comes first: when the acting user owns no
    draft with the given id the call fails with the not-found error whatever
    the dict is, also when the dict would fail validation.  When the draft
    is there and validation fails with [e], the edit fails with [e]; the
    stored rows are left as they were, and nothing is saved or published. *)
Theorem edit_error_order `{C : Collaborators}
    (draft_id : Z) (d : DraftDict.t) (u : UserProfile.t) (w : World) :
  (~ owns_draft u draft_id w ->
   do_edit_draft draft_id d u w = (inl DraftNotFound, w))
  /\ (forall e,
        owns_draft u draft_id w ->
        fst (further_validated_draft_dict d u w) = inl e ->
        fst (do_edit_draft draft_id d u w) = inl e
        /\ drafts (snd (do_edit_draft draft_id d u w)) = drafts w
        /\ next_id (snd (do_edit_draft draft_id d u w)) = next_id w
        /\ effects (snd (do_edit_draft draft_id d u w)) = effects w).
Proof.
  split.
  - intros H. apply edit_not_found. now apply objects_get_None.
  - intros e Hown Hfail.
    destruct (objects_get draft_id u w) as [obj |] eqn:Hget;
      [| apply objects_get_None in Hget; contradiction].
    rewrite (edit_found draft_id d u w obj Hget), Hfail. cbn. auto.
Qed.

Lemma not_found_iff_not_owned_witness :
  (forall d, do_edit_draft 5 d Sample.bob Sample.world_one
             = (inl DraftNotFound, Sample.world_one))
  /\ fst (do_delete_draft 5 Sample.alice Sample.world_one) = inr tt
  /\ do_delete_draft 5 Sample.alice (snd (do_delete_draft 5 Sample.alice Sample.world_one))
     = (inl DraftNotFound, snd (do_delete_draft 5 Sample.alice Sample.world_one)).
Proof.
  destruct (not_found_iff_not_owned 5 Sample.bob Sample.world_one)
    as (_ & _ & _ & Hother & _).
  destruct (not_found_iff_not_owned 5 Sample.alice Sample.world_one)
    as (_ & _ & _ & _ & Htwice).
  split.
  - apply (Hother Sample.stored); [reflexivity | cbn; lia].
  - apply Htwice. exists Sample.stored. split; reflexivity.
Defined.

Lemma edit_error_order_witness :
  let d := Sample.private_draft [] (Some (PyInt (-1))) in
  do_edit_draft 7 d Sample.alice Sample.world_one = (inl DraftNotFound, Sample.world_one)
  /\ fst (do_edit_draft 5 d Sample.alice Sample.world_one) = inl InvalidTimestamp
  /\ drafts (snd (do_edit_draft 5 d Sample.alice Sample.world_one))
     = drafts Sample.world_one
  /\ next_id (snd (do_edit_draft 5 d Sample.alice Sample.world_one))
     = next_id Sample.world_one
  /\ effects (snd (do_edit_draft 5 d Sample.alice Sample.world_one))
     = effects Sample.world_one.
Proof.
  intros d. split.
  - apply (edit_error_order 7 d Sample.alice Sample.world_one).
    intros (row & Hrow & _). vm_compute in Hrow. discriminate Hrow.
  - apply (proj2 (edit_error_order 5 d Sample.alice Sample.world_one) InvalidTimestamp).
    + exists Sample.stored. split; reflexivity.
    + reflexivity.
Defined.

(** ** Persisted drafts *)

Section Persisted.
Context {C : Collaborators}.
Implicit Types (d : DraftDict.t) (u : UserProfile.t) (w : World).

Lemma fvdd_well_formed d u w v :
  fst (further_validated_draft_dict d u w) = inr v ->
  well_formed_for d (ValidDraftDict.topic v) (ValidDraftDict.recipient_id v).
Proof.
  intros H. unfold well_formed_for, addressed.
  destruct (fvdd_success_shape d u w v H)
    as [(Hs & Ht & Hn & Hr) | [(Hs & Hp & Hto & Ht & Hr) | (Hs & Hp & Ht & Hr)]].
  - split; [auto |]. split; [exact Hn |]. tauto.
  - rewrite Ht. split; [congruence |]. split; [reflexivity |]. tauto.
  - rewrite Ht, Hr. split; [congruence |]. split; [reflexivity |]. split.
    + intros [x Hx]; discriminate.
    + intros [Hs' | [Hp' Hto]]; [contradiction | destruct Hp; contradiction].
Qed.

Lemma fvdd_unaddressed d u w v :
  fst (further_validated_draft_dict d u w) = inr v ->
  (DraftDict.type d = "private" /\ DraftDict.to d = []) \/ DraftDict.type d = "" ->
  ValidDraftDict.recipient_id v = None /\ ValidDraftDict.topic v = "".
Proof.
  intros H Hd.
  destruct (fvdd_success_shape d u w v H)
    as [(Hs & _) | [(_ & Hp & Hto & _) | (_ & _ & Ht & Hr)]]; [| | auto].
  - destruct Hd as [[Hp _] | He]; rewrite Hs in *; discriminate.
  - destruct Hd as [[_ Hto'] | He]; [contradiction | rewrite Hp in He; discriminate].
Qed.

(** A loop that succeeds has validated every dict. *)
Lemma append_validated_inv ds u : forall (acc objs : list Draft.t) w w',
  append_validated ds u acc w = (inr objs, w') ->
  exists vs : list ValidDraftDict.t,
    objs = (acc ++ map (new_draft u) vs)%list
    /\ length vs = length ds
    /\ forall (i : nat) d v, ds !! i = Some d -> vs !! i = Some v ->
         fst (further_validated_draft_dict d u (advance i w)) = inr v.
Proof.
  induction ds as [| d0 rest IH]; intros acc objs w w' H.
  - cbn in H. injection H as <- _. exists []. rewrite app_nil_r.
    repeat split. intros i d v Hd. destruct i; discriminate Hd.
  - cbn in H. unfold bind in H. rewrite (fvdd_pair d0 u w) in H.
    destruct (fst (further_validated_draft_dict d0 u w)) as [e | v0] eqn:E;
      [discriminate |].
    apply IH in H as (vs & -> & Hlen & Hall).
    exists (v0 :: vs). split; [now rewrite <- app_assoc |]. split; [cbn; lia |].
    intros [| i] d v Hd Hv; cbn in Hd, Hv.
    + injection Hd as <-. injection Hv as <-. now rewrite advance_0.
    + specialize (Hall i d v Hd Hv). rewrite advance_advance in Hall.
      now replace (i + 1)%nat with (S i) in Hall by lia.
Qed.

Lemma do_create_drafts_passes ds u w (vs : list ValidDraftDict.t) :
  length vs = length ds ->
  (forall (i : nat) d v, ds !! i = Some d -> vs !! i = Some v ->
     fst (further_validated_draft_dict d u (advance i w)) = inr v) ->
  let objs := map (new_draft u) vs in
  let created := assign_ids (next_id w) objs in
  do_create_drafts ds u w
  = (inr created,
     record (SendEvent (UserProfile.realm u) (DraftsAdd (map to_dict created))
               [UserProfile.id u])
       (record (BulkCreate created)
          (set_store (insert_rows (next_id w) objs (drafts w))
             (next_id w + Z.of_nat (length objs)) (advance (length ds) w)))).
Proof.
  intros Hlen Hall objs created. unfold do_create_drafts, bind.
  rewrite (append_validated_passes ds u vs [] w Hlen Hall). reflexivity.
Qed.

Lemma map_lookup {A B} (f : A -> B) (l : list A) (i : nat) :
  map f l !! i = f <$> l !! i.
Proof.
  revert i. induction l as [| x l IH]; intros [| i]; cbn; try reflexivity. apply IH.
Qed.
End Persisted.

(** C4.  Every successful result of the validator is well formed for its
    dict: the topic is empty unless the dict is of type "stream", the topic
    has no null byte, and [recipient_id] is set exactly when the dict is
    addressed (type "stream", or type "private" with a non-empty [to]); for
    a private dict with an empty [to] and for the empty type,
    [recipient_id] is null and the topic is empty.  Hence the rows this
    module writes are well formed too: each row a successful bulk creation
    stores, for the dict at its position, and the row a successful edit
    saves, for the dict of the edit. *)
Theorem result_invariants `{C : Collaborators} (u : UserProfile.t) (w : World) :
  (forall d v,
     fst (further_validated_draft_dict d u w) = inr v ->
     well_formed_for d (ValidDraftDict.topic v) (ValidDraftDict.recipient_id v)
     /\ ((DraftDict.type d = "private" /\ DraftDict.to d = []) \/ DraftDict.type d = "" ->
         ValidDraftDict.recipient_id v = None /\ ValidDraftDict.topic v = ""))
  /\ (forall ds created,
        fst (do_create_drafts ds u w) = inr created ->
        length created = length ds
        /\ forall (i : nat) d obj, ds !! i = Some d -> created !! i = Some obj ->
             drafts (snd (do_create_drafts ds u w)) !! (next_id w + Z.of_nat i) = Some obj
             /\ well_formed_for d (Draft.topic obj) (Draft.recipient_id obj))
  /\ (forall draft_id d,
        fst (do_edit_draft draft_id d u w) = inr tt ->
        exists obj,
          drafts (snd (do_edit_draft draft_id d u w)) !! draft_id = Some obj
          /\ well_formed_for d (Draft.topic obj) (Draft.recipient_id obj)).
Proof.
  split; [| split].
  - intros d v H. split; [now apply (fvdd_well_formed d u w) | now apply (fvdd_unaddressed d u w)].
  - intros ds created Hc.
    destruct (append_validated ds u [] w) as [[e | objs] w1] eqn:E.
    { unfold do_create_drafts, bind in Hc. rewrite E in Hc. discriminate Hc. }
    apply append_validated_inv in E as (vs & _ & Hlen & Hall).
    rewrite (do_create_drafts_passes ds u w vs Hlen Hall) in Hc |- *.
    cbn [fst snd] in *. injection Hc as <-.
    split.
    + now rewrite assign_ids_length, length_map.
    + intros i d obj Hd Hobj. rewrite assign_ids_lookup, map_lookup in Hobj.
      destruct (vs !! i) as [v |] eqn:Hv; [| discriminate]. cbn in Hobj.
      injection Hobj as <-. split.
      * cbn. apply insert_rows_at. now rewrite map_lookup, Hv.
      * cbn. apply (fvdd_well_formed d u (advance i w)). now apply Hall.
  - intros draft_id d He.
    destruct (objects_get draft_id u w) as [obj |] eqn:Hget.
    + rewrite (edit_found draft_id d u w obj Hget) in He |- *.
      destruct (fst (further_validated_draft_dict d u w)) as [e | v] eqn:E;
        [discriminate |].
      eexists. split; [cbn; apply lookup_insert_eq |].
      cbn. now apply (fvdd_well_formed d u w).
    + rewrite (edit_not_found draft_id d u w Hget) in He. discriminate.
Qed.

Lemma result_invariants_witness :
  let d := Sample.private_draft [] (Some (PyInt 5)) in
  let v := {| ValidDraftDict.recipient_id := None; ValidDraftDict.topic := "";
              ValidDraftDict.content := "hi"; ValidDraftDict.last_edit_time := 5000000 |} in
  fst (further_validated_draft_dict d Sample.alice Sample.world) = inr v
  /\ ValidDraftDict.recipient_id v = None /\ ValidDraftDict.topic v = "".
Proof.
  intros d v. split; [reflexivity |].
  apply (proj1 (result_invariants Sample.alice Sample.world) d v eq_refl).
  left. split; reflexivity.
Defined.

(** * Further properties *)

(** ** The validator beyond the stream branch *)

Section PrivateBranch.
Context {C : Collaborators}.
Implicit Types (d : DraftDict.t) (u : UserProfile.t) (w : World).

(** The whole of the private branch, once the timestamp is accepted. *)
Lemma fvdd_private d u w :
  DraftDict.type d = "private" ->
  DraftDict.to d <> [] ->
  num_lt0 (round6 (timestamp_in d w)) = false ->
  fst (further_validated_draft_dict d u w) =
    match get_user_profiles_by_ids (list_to_set (DraftDict.to d)) (UserProfile.realm u) with
    | inl e => inl (Passed e)
    | inr to_users =>
        match recipient_for_user_profiles to_users false None u with
        | inr recipient =>
            inr {| ValidDraftDict.recipient_id := Some (Recipient.id recipient);
                   ValidDraftDict.topic := "";
                   ValidDraftDict.content := normalize_body (DraftDict.content d);
                   ValidDraftDict.last_edit_time :=
                     timestamp_to_datetime (round6 (timestamp_in d w)) |}
        | inl (ValidationError (m :: _)) => inl (JsonableError m)
        | inl (ValidationError []) => inl IndexError
        | inl e => inl (Passed e)
        end
    end.
Proof.
  unfold timestamp_in. intros Hty Hto Hts. run. rewrite Hts, Hty. cbn.
  destruct (DraftDict.to d) as [| x l] eqn:E; [contradiction |]. cbn.
  destruct (get_user_profiles_by_ids _ _) as [e | to_users]; [reflexivity |].
  destruct (recipient_for_user_profiles _ _ _ _) as [[| | [| m ms]] | r]; reflexivity.
Qed.

Lemma list_to_set_nil_iff (l : list Z) : list_to_set (C := gset Z) l = ∅ <-> l = [].
Proof.
  split; [| intros ->; reflexivity].
  destruct l as [| x l]; [reflexivity |]. cbn. intros H.
  assert (Hx : x ∈ ({[x]} ∪ list_to_set l : gset Z)) by set_solver.
  rewrite H in Hx. set_solver.
Qed.
End PrivateBranch.

(** X1.  For a private draft with recipients and an accepted timestamp: a
    failure of the user lookup is passed on unchanged; a validation error
    of the recipient resolver comes out as a [JsonableError] that carries
    the resolver's first message and drops the others; and when both
    succeed the result has the resolver's recipient id and an empty topic,
    whatever topic the dict had. *)
Theorem private_draft_resolved `{C : Collaborators}
    (d : DraftDict.t) (u : UserProfile.t) (w : World) :
  DraftDict.type d = "private" ->
  DraftDict.to d <> [] ->
  num_lt0 (round6 (timestamp_in d w)) = false ->
  (forall e,
     get_user_profiles_by_ids (list_to_set (DraftDict.to d)) (UserProfile.realm u) = inl e ->
     fst (further_validated_draft_dict d u w) = inl (Passed e))
  /\ (forall to_users,
        get_user_profiles_by_ids (list_to_set (DraftDict.to d)) (UserProfile.realm u)
          = inr to_users ->
        (forall m ms,
           recipient_for_user_profiles to_users false None u
             = inl (ValidationError (m :: ms)) ->
           fst (further_validated_draft_dict d u w) = inl (JsonableError m))
        /\ (forall recipient,
              recipient_for_user_profiles to_users false None u = inr recipient ->
              exists v,
                fst (further_validated_draft_dict d u w) = inr v
                /\ ValidDraftDict.recipient_id v = Some (Recipient.id recipient)
                /\ ValidDraftDict.topic v = "")).
Proof.
  intros Hty Hto Hts. pose proof (fvdd_private d u w Hty Hto Hts) as E.
  split.
  - intros e He. now rewrite He in E.
  - intros to_users Hu. rewrite Hu in E. split.
    + intros m ms Hr. now rewrite Hr in E.
    + intros r Hr. rewrite Hr in E. eexists. split; [exact E |]. cbn. auto.
Qed.

Lemma private_draft_resolved_witness :
  let d := Sample.private_draft [1; 2] (Some (PyInt 5)) in
  fst (further_validated_draft_dict d Sample.alice Sample2.strict_world)
  = inl (JsonableError "Too many recipients").
Proof.
  intros d.
  destruct (private_draft_resolved d Sample.alice Sample2.strict_world)
    as [_ Hres]; [reflexivity | discriminate | reflexivity |].
  destruct (Hres _ eq_refl) as [Herr _].
  apply (Herr "Too many recipients" ["Try again"]). reflexivity.
Defined.

(** X2.  For a private draft only the set of ids in [to] matters: a dict
    whose [to] lists the same ids in another order, or lists some of them
    more than once, gives the same outcome. *)
Theorem private_to_as_set `{C : Collaborators}
    (d : DraftDict.t) (to' : list Z) (u : UserProfile.t) (w : World) :
  DraftDict.type d = "private" ->
  list_to_set (C := gset Z) to' = list_to_set (DraftDict.to d) ->
  fst (further_validated_draft_dict (with_to to' d) u w)
  = fst (further_validated_draft_dict d u w).
Proof.
  intros Hty Hset.
  assert (Hnil : to' = [] <-> DraftDict.to d = []).
  { rewrite <- !list_to_set_nil_iff, Hset. reflexivity. }
  destruct (num_lt0 (round6 (timestamp_in d w))) eqn:Hts.
  - rewrite (fvdd_negative d u w Hts). now apply fvdd_negative.
  - destruct (DraftDict.to d) as [| x l] eqn:Hto.
    + assert (to' = []) as -> by now apply Hnil.
      unfold with_to. rewrite <- Hto. now destruct d.
    + assert (Hto' : to' <> []) by (intros H; apply Hnil in H; discriminate).
      rewrite (fvdd_private (with_to to' d) u w Hty Hto' Hts).
      rewrite (fvdd_private d u w Hty); [| rewrite Hto; discriminate | exact Hts].
      cbn [with_to DraftDict.to DraftDict.content]. rewrite Hset, Hto. reflexivity.
Qed.

Lemma private_to_as_set_witness :
  let d := Sample.private_draft [1; 2] (Some (PyInt 5)) in
  fst (further_validated_draft_dict (with_to [2; 1; 2] d) Sample.alice Sample.world)
  = fst (further_validated_draft_dict d Sample.alice Sample.world).
Proof.
  intros d. apply (private_to_as_set d [2; 1; 2] Sample.alice Sample.world eq_refl).
  cbn. set_solver.
Defined.

(** X3.  A draft that is not addressed never fails on its addressing: for
    a dict of a type other than "stream" that is not private, or is private
    with an empty [to], the call succeeds whenever the timestamp is
    accepted.  The result has no recipient and an empty topic, and neither
    the topic nor (for a non-private dict) the ids of the dict play a
    part. *)
Theorem unaddressed_draft_accepted `{C : Collaborators}
    (d : DraftDict.t) (u : UserProfile.t) (w : World) :
  DraftDict.type d <> "stream" ->
  DraftDict.type d <> "private" \/ DraftDict.to d = [] ->
  num_lt0 (round6 (timestamp_in d w)) = false ->
  fst (further_validated_draft_dict d u w)
  = inr {| ValidDraftDict.recipient_id := None;
           ValidDraftDict.topic := "";
           ValidDraftDict.content := normalize_body (DraftDict.content d);
           ValidDraftDict.last_edit_time :=
             timestamp_to_datetime (round6 (timestamp_in d w)) |}.
Proof.
  unfold timestamp_in. intros Hs Hp Hts. run. rewrite Hts.
  destruct (String.eqb_spec (DraftDict.type d) "stream") as [? | _]; [contradiction |].
  destruct Hp as [Hp | Hto].
  - destruct (String.eqb_spec (DraftDict.type d) "private") as [? | _]; [contradiction |].
    reflexivity.
  - rewrite Hto. cbn. rewrite andb_false_r. reflexivity.
Qed.

Lemma unaddressed_draft_accepted_witness :
  let d := {| DraftDict.type := ""; DraftDict.to := [42; 43];
              DraftDict.topic := "left over"; DraftDict.content := "hi";
              DraftDict.timestamp := Some (PyInt 5) |} in
  fst (further_validated_draft_dict d Sample.alice Sample.world)
  = inr {| ValidDraftDict.recipient_id := None; ValidDraftDict.topic := "";
           ValidDraftDict.content := "hi"; ValidDraftDict.last_edit_time := 5000000 |}.
Proof.
  intros d.
  apply (unaddressed_draft_accepted d Sample.alice Sample.world);
    [discriminate | left; discriminate | reflexivity].
Defined.

(** X4.  In the stream branch the topic is checked before the recipients:
    when the truncated topic contains a null byte and the timestamp is
    accepted the call fails with the topic error, whether [to] is empty,
    holds several ids or names a stream the user cannot access. *)
Theorem null_topic_checked_first `{C : Collaborators}
    (d : DraftDict.t) (u : UserProfile.t) (w : World) :
  DraftDict.type d = "stream" ->
  num_lt0 (round6 (timestamp_in d w)) = false ->
  contains_null (truncate_topic (DraftDict.topic d)) = true ->
  fst (further_validated_draft_dict d u w) = inl InvalidTopic.
Proof.
  intros Hty Hts Hnull. rewrite (fvdd_stream d u w Hty Hts), Hnull. reflexivity.
Qed.

Lemma null_topic_checked_first_witness :
  let d := Sample.stream_draft (String "000"%char "plans") [43; 99] (Some (PyInt 5)) in
  fst (further_validated_draft_dict d Sample.alice Sample.world) = inl InvalidTopic.
Proof.
  intros d.
  apply (null_topic_checked_first d Sample.alice Sample.world); reflexivity.
Defined.

(** X5.  Validation has no effect on the store or the event queue, whatever
    its outcome: no row, no key and no effect changes.  It reads the clock
    exactly once, also when the dict carries its own timestamp. *)
Theorem validation_only_reads_clock `{C : Collaborators}
    (d : DraftDict.t) (u : UserProfile.t) (w : World) :
  let w' := snd (further_validated_draft_dict d u w) in
  drafts w' = drafts w
  /\ next_id w' = next_id w
  /\ effects w' = effects w
  /\ wall_clock w' = wall_clock w
  /\ clock_reads w' = S (clock_reads w).
Proof.
  cbv zeta. rewrite fvdd_world. cbn. auto.
Qed.

(** ** What the mutations do when they succeed *)

Section Mutations.
Context {C : Collaborators}.
Implicit Types (d : DraftDict.t) (u : UserProfile.t) (w : World).

Lemma objects_get_owned draft_id u w row :
  drafts w !! draft_id = Some row ->
  UserProfile.id (Draft.user_profile row) = UserProfile.id u ->
  objects_get draft_id u w = Some (Draft.with_id draft_id row).
Proof.
  intros Hrow Hown. unfold objects_get. rewrite Hrow, Hown, Z.eqb_refl. reflexivity.
Qed.

Lemma objects_get_inv draft_id u w obj :
  objects_get draft_id u w = Some obj ->
  exists row,
    drafts w !! draft_id = Some row
    /\ UserProfile.id (Draft.user_profile row) = UserProfile.id u
    /\ obj = Draft.with_id draft_id row.
Proof.
  unfold objects_get. destruct (drafts w !! draft_id) as [row |]; [| discriminate].
  destruct (Z.eqb_spec (UserProfile.id (Draft.user_profile row)) (UserProfile.id u));
    [| discriminate].
  intros [= <-]. eauto.
Qed.

(** The loop only reads the clock. *)
Lemma append_validated_world ds u : forall acc w,
  exists n, snd (append_validated ds u acc w) = advance n w.
Proof.
  induction ds as [| d0 rest IH]; intros acc w; cbn.
  - exists 0%nat. now rewrite advance_0.
  - unfold bind. rewrite (fvdd_pair d0 u w).
    destruct (fst (further_validated_draft_dict d0 u w)) as [e | v].
    + now exists 1%nat.
    + destruct (IH (acc ++ [new_draft u v])%list (advance 1 w)) as [n Hn].
      exists (n + 1)%nat. now rewrite Hn, advance_advance.
Qed.

(** A bulk creation, by the outcome of its loop. *)
Lemma do_create_drafts_cases ds u w :
  (exists e n, do_create_drafts ds u w = (inl e, advance n w))
  \/ (exists objs n,
        do_create_drafts ds u w
        = (inr (assign_ids (next_id w) objs),
           record (SendEvent (UserProfile.realm u)
                     (DraftsAdd (map to_dict (assign_ids (next_id w) objs)))
                     [UserProfile.id u])
             (record (BulkCreate (assign_ids (next_id w) objs))
                (set_store (insert_rows (next_id w) objs (drafts w))
                   (next_id w + Z.of_nat (length objs)) (advance n w))))).
Proof.
  unfold do_create_drafts, bind.
  destruct (append_validated_world ds u [] w) as [n Hn].
  destruct (append_validated ds u [] w) as [[e | objs] w1]; cbn in Hn; subst w1.
  - left. eauto.
  - right. exists objs, n. reflexivity.
Qed.
End Mutations.

(** X6.  A successful edit replaces the four content fields of the draft
    and nothing else: the row keeps its key and its owner and takes the
    content, topic, recipient and time of the validated dict; every other
    row stays as it was and no key is used up.  The row is saved first and
    then one drafts/update event with the updated draft is published. *)
Theorem edit_replaces_fields `{C : Collaborators}
    (draft_id : Z) (d : DraftDict.t) (u : UserProfile.t) (w : World)
    (row : Draft.t) (v : ValidDraftDict.t) :
  drafts w !! draft_id = Some row ->
  UserProfile.id (Draft.user_profile row) = UserProfile.id u ->
  fst (further_validated_draft_dict d u w) = inr v ->
  let w' := snd (do_edit_draft draft_id d u w) in
  let obj := overwritten (Draft.with_id draft_id row) v in
  fst (do_edit_draft draft_id d u w) = inr tt
  /\ drafts w' !! draft_id = Some obj
  /\ (forall k, k <> draft_id -> drafts w' !! k = drafts w !! k)
  /\ next_id w' = next_id w
  /\ effects w'
     = (effects w ++
        [Save obj;
         SendEvent (UserProfile.realm u) (DraftsUpdate (to_dict obj))
           [UserProfile.id u]])%list.
Proof.
  intros Hrow Hown Hv w' obj. subst w' obj.
  rewrite (edit_found draft_id d u w _ (objects_get_owned draft_id u w row Hrow Hown)), Hv.
  cbn. rewrite <- app_assoc. repeat split.
  - apply lookup_insert_eq.
  - intros k Hk. apply lookup_insert_ne. congruence.
Qed.

Lemma edit_replaces_fields_witness :
  let d := Sample.stream_draft "plans" [42] (Some (PyInt 5)) in
  let w' := snd (do_edit_draft 5 d Sample.alice Sample2.world_two) in
  fst (do_edit_draft 5 d Sample.alice Sample2.world_two) = inr tt
  /\ drafts w' !! 5
     = Some {| Draft.id := Some 5; Draft.user_profile := Sample.alice;
               Draft.recipient_id := Some 7; Draft.topic := "plans";
               Draft.content := "hi"; Draft.last_edit_time := 5000000 |}
  /\ drafts w' !! 6 = Some Sample2.stored_bob.
Proof.
  intros d w'.
  destruct (edit_replaces_fields 5 d Sample.alice Sample2.world_two Sample.stored
              {| ValidDraftDict.recipient_id := Some 7; ValidDraftDict.topic := "plans";
                 ValidDraftDict.content := "hi";
                 ValidDraftDict.last_edit_time := 5000000 |}
              eq_refl eq_refl eq_refl) as (Hok & Hrow & Hothers & _).
  split; [exact Hok |]. split; [exact Hrow |].
  unfold w'. rewrite (Hothers 6); [reflexivity | lia].
Defined.

(** X7.  A successful delete removes the one row and nothing else: the key
    is free afterwards and is not handed out again, every other row stays
    as it was, and the clock is not read.  The row is deleted first and
    then one drafts/remove event that carries the id is published. *)
Theorem delete_removes_row `{C : Collaborators}
    (draft_id : Z) (u : UserProfile.t) (w : World) (row : Draft.t) :
  drafts w !! draft_id = Some row ->
  UserProfile.id (Draft.user_profile row) = UserProfile.id u ->
  let w' := snd (do_delete_draft draft_id u w) in
  fst (do_delete_draft draft_id u w) = inr tt
  /\ drafts w' !! draft_id = None
  /\ (forall k, k <> draft_id -> drafts w' !! k = drafts w !! k)
  /\ next_id w' = next_id w
  /\ clock_reads w' = clock_reads w
  /\ effects w'
     = (effects w ++
        [Delete (Draft.with_id draft_id row);
         SendEvent (UserProfile.realm u) (DraftsRemove (Some draft_id))
           [UserProfile.id u]])%list.
Proof.
  intros Hrow Hown w'. subst w'.
  rewrite (delete_found draft_id u w _ (objects_get_owned draft_id u w row Hrow Hown)).
  cbn. rewrite <- app_assoc. repeat split.
  - apply lookup_delete_eq.
  - intros k Hk. apply lookup_delete_ne. congruence.
Qed.

Lemma delete_removes_row_witness :
  let w' := snd (do_delete_draft 5 Sample.alice Sample2.world_two) in
  fst (do_delete_draft 5 Sample.alice Sample2.world_two) = inr tt
  /\ drafts w' !! 5 = None
  /\ drafts w' !! 6 = Some Sample2.stored_bob
  /\ next_id w' = 7.
Proof.
  intros w'.
  destruct (delete_removes_row 5 Sample.alice Sample2.world_two Sample.stored
              eq_refl eq_refl) as (Hok & Hgone & Hothers & Hnext & _).
  split; [exact Hok |]. split; [exact Hgone |]. split; [| exact Hnext].
  unfold w'. rewrite (Hothers 6); [reflexivity | lia].
Defined.

(** ** Creation and the scoped lookup *)

Section CreatedRows.
Context {C : Collaborators}.
Implicit Types (d : DraftDict.t) (u : UserProfile.t) (w : World).

(** A bulk creation that succeeds, with the validated dicts behind it. *)
Lemma do_create_drafts_inv ds u w created :
  fst (do_create_drafts ds u w) = inr created ->
  exists vs : list ValidDraftDict.t,
    length vs = length ds
    /\ (forall (i : nat) d v, ds !! i = Some d -> vs !! i = Some v ->
          fst (further_validated_draft_dict d u (advance i w)) = inr v)
    /\ created = assign_ids (next_id w) (map (new_draft u) vs)
    /\ drafts (snd (do_create_drafts ds u w))
       = insert_rows (next_id w) (map (new_draft u) vs) (drafts w)
    /\ next_id (snd (do_create_drafts ds u w)) = next_id w + Z.of_nat (length ds).
Proof.
  intros Hc.
  destruct (append_validated ds u [] w) as [[e | objs] w1] eqn:E.
  { unfold do_create_drafts, bind in Hc. rewrite E in Hc. discriminate Hc. }
  apply append_validated_inv in E as (vs & _ & Hlen & Hall).
  rewrite (do_create_drafts_passes ds u w vs Hlen Hall) in Hc |- *.
  cbn [fst snd] in *. injection Hc as <-.
  exists vs. repeat split; auto. cbn. rewrite length_map. lia.
Qed.

Lemma created_lookup u w (vs : list ValidDraftDict.t) (i : nat) obj :
  assign_ids (next_id w) (map (new_draft u) vs) !! i = Some obj ->
  exists v,
    vs !! i = Some v
    /\ obj = Draft.with_id (next_id w + Z.of_nat i) (new_draft u v)
    /\ insert_rows (next_id w) (map (new_draft u) vs) (drafts w)
         !! (next_id w + Z.of_nat i) = Some obj.
Proof.
  intros Hobj. rewrite assign_ids_lookup, map_lookup in Hobj.
  destruct (vs !! i) as [v |] eqn:Hv; [| discriminate]. cbn in Hobj.
  injection Hobj as <-. exists v. repeat split.
  apply insert_rows_at. now rewrite map_lookup, Hv.
Qed.
End CreatedRows.

(** X8.  Round trip of creation and lookup: after a successful bulk
    creation, the lookup of the acting user under the key of the i-th
    created draft gives back exactly that draft.  The same key looked up by
    any other user gives nothing, so an edit or a delete by another user
    fails with the not-found error and leaves the world as it is. *)
Theorem created_drafts_readable `{C : Collaborators}
    (ds : list DraftDict.t) (u : UserProfile.t) (w : World) (created : list Draft.t) :
  fst (do_create_drafts ds u w) = inr created ->
  let w' := snd (do_create_drafts ds u w) in
  forall (i : nat) obj,
    created !! i = Some obj ->
    let k := next_id w + Z.of_nat i in
    Draft.id obj = Some k
    /\ Draft.user_profile obj = u
    /\ objects_get k u w' = Some obj
    /\ (forall u', UserProfile.id u' <> UserProfile.id u ->
          objects_get k u' w' = None
          /\ (forall d', do_edit_draft k d' u' w' = (inl DraftNotFound, w'))
          /\ do_delete_draft k u' w' = (inl DraftNotFound, w')).
Proof.
  intros Hc w' i obj Hobj k. subst w' k.
  destruct (do_create_drafts_inv ds u w created Hc) as (vs & _ & _ & -> & Hrows & _).
  destruct (created_lookup u w vs i obj Hobj) as (v & _ & -> & Hrow).
  rewrite <- Hrows in Hrow.
  split; [reflexivity |]. split; [reflexivity |]. split.
  - rewrite (objects_get_owned _ u _ _ Hrow); reflexivity.
  - intros u' Hne.
    assert (Hnone : objects_get (next_id w + Z.of_nat i) u'
                      (snd (do_create_drafts ds u w)) = None).
    { unfold objects_get. rewrite Hrow. cbn.
      destruct (Z.eqb_spec (UserProfile.id u) (UserProfile.id u')); congruence. }
    split; [exact Hnone |].
    split; [intros d'; now apply edit_not_found | now apply delete_not_found].
Qed.

Lemma created_drafts_readable_witness :
  let ds := [Sample.stream_draft "plans" [42] None; Sample.private_draft [] (Some (PyInt 3))] in
  let w' := snd (do_create_drafts ds Sample.alice Sample.world) in
  exists obj,
    objects_get 2 Sample.alice w' = Some obj
    /\ Draft.content obj = "hi"
    /\ objects_get 2 Sample.bob w' = None.
Proof.
  intros ds w'.
  pose (obj := {| Draft.id := Some 2; Draft.user_profile := Sample.alice;
                  Draft.recipient_id := None; Draft.topic := "";
                  Draft.content := "hi"; Draft.last_edit_time := 3000000 |}).
  destruct (created_drafts_readable ds Sample.alice Sample.world
              (assign_ids 1 [new_draft Sample.alice
                               {| ValidDraftDict.recipient_id := Some 7;
                                  ValidDraftDict.topic := "plans";
                                  ValidDraftDict.content := "hi";
                                  ValidDraftDict.last_edit_time := 1500000 |};
                             Draft.with_id 2 obj])
              eq_refl 1%nat obj eq_refl) as (_ & _ & Hget & Hother).
  exists obj. split; [exact Hget |]. split; [reflexivity |].
  apply (Hother Sample.bob). cbn. lia.
Defined.

(** X9.  Each created draft is the validator's result for the dict at its
    position, taken at that dict's own reading of the clock, with the
    acting user as owner and the next free key: the batch keeps the order
    of the dicts, returns as many drafts as there are dicts, and uses up
    exactly that many keys. *)
Theorem created_drafts_follow_dicts `{C : Collaborators}
    (ds : list DraftDict.t) (u : UserProfile.t) (w : World) (created : list Draft.t) :
  fst (do_create_drafts ds u w) = inr created ->
  length created = length ds
  /\ next_id (snd (do_create_drafts ds u w)) = next_id w + Z.of_nat (length ds)
  /\ clock_reads (snd (do_create_drafts ds u w)) = (length ds + clock_reads w)%nat
  /\ forall (i : nat) d obj,
       ds !! i = Some d -> created !! i = Some obj ->
       exists v,
         fst (further_validated_draft_dict d u (advance i w)) = inr v
         /\ obj = Draft.with_id (next_id w + Z.of_nat i) (new_draft u v)
         /\ Draft.content obj = normalize_body (DraftDict.content d)
         /\ Draft.last_edit_time obj
            = timestamp_to_datetime (round6 (timestamp_in d (advance i w))).
Proof.
  intros Hc.
  destruct (do_create_drafts_inv ds u w created Hc) as (vs & Hlen & Hall & -> & _ & Hnext).
  split; [now rewrite assign_ids_length, length_map |]. split; [exact Hnext |]. split.
  - rewrite (do_create_drafts_passes ds u w vs Hlen Hall). reflexivity.
  - intros i d obj Hd Hobj.
    destruct (created_lookup u w vs i obj Hobj) as (v & Hv & -> & _).
    pose proof (Hall i d v Hd Hv) as Hres.
    destruct (fvdd_last_edit_time d u (advance i w) v Hres) as [Htime Hcontent].
    exists v. repeat split; assumption.
Qed.

Lemma created_drafts_follow_dicts_witness :
  let ds := [Sample.stream_draft "plans" [42] None; Sample.private_draft [] None] in
  exists created,
    fst (do_create_drafts ds Sample.alice (advance 2 Sample.world)) = inr created
    /\ length created = 2%nat
    /\ next_id (snd (do_create_drafts ds Sample.alice (advance 2 Sample.world))) = 3.
Proof.
  intros ds. eexists. split; [vm_compute; reflexivity |].
  destruct (created_drafts_follow_dicts ds Sample.alice (advance 2 Sample.world) _ eq_refl)
    as (Hlen & Hnext & _).
  split; [exact Hlen | exact Hnext].
Defined.

(** ** What the mutations never do *)

(** X10.  No operation of a user changes a draft of another user: whatever
    the outcome, a row owned by someone else is the same after an edit or
    a delete under any id, and after a bulk creation when the row's key is
    below the next key of the store. *)
Theorem other_users_rows_untouched `{C : Collaborators}
    (u : UserProfile.t) (w : World) (k' : Z) (row : Draft.t) :
  drafts w !! k' = Some row ->
  UserProfile.id (Draft.user_profile row) <> UserProfile.id u ->
  (forall draft_id d, drafts (snd (do_edit_draft draft_id d u w)) !! k' = Some row)
  /\ (forall draft_id, drafts (snd (do_delete_draft draft_id u w)) !! k' = Some row)
  /\ (forall ds, k' < next_id w ->
        drafts (snd (do_create_drafts ds u w)) !! k' = Some row).
Proof.
  intros Hrow Hne.
  assert (Hkey : forall draft_id obj, objects_get draft_id u w = Some obj -> draft_id <> k').
  { intros draft_id obj Hget ->.
    apply objects_get_inv in Hget as (row' & Hrow' & Hown & _). congruence. }
  split; [| split].
  - intros draft_id d.
    destruct (objects_get draft_id u w) as [obj |] eqn:Hget.
    + rewrite (edit_found draft_id d u w obj Hget).
      destruct (fst (further_validated_draft_dict d u w)) as [e | v]; cbn; [exact Hrow |].
      rewrite lookup_insert_ne; [exact Hrow | now apply (Hkey draft_id obj)].
    + now rewrite (edit_not_found draft_id d u w Hget).
  - intros draft_id.
    destruct (objects_get draft_id u w) as [obj |] eqn:Hget.
    + rewrite (delete_found draft_id u w obj Hget). cbn.
      rewrite lookup_delete_ne; [exact Hrow | now apply (Hkey draft_id obj)].
    + now rewrite (delete_not_found draft_id u w Hget).
  - intros ds Hk.
    destruct (do_create_drafts_cases ds u w) as [(e & n & ->) | (objs & n & ->)]; cbn.
    + exact Hrow.
    + now rewrite insert_rows_below.
Qed.

Lemma other_users_rows_untouched_witness :
  drafts (snd (do_delete_draft 6 Sample.alice Sample2.world_two)) !! 6
    = Some Sample2.stored_bob
  /\ drafts (snd (do_edit_draft 6 (Sample.private_draft [] None) Sample.alice
                    Sample2.world_two)) !! 6
     = Some Sample2.stored_bob.
Proof.
  destruct (other_users_rows_untouched Sample.alice Sample2.world_two 6 Sample2.stored_bob)
    as (Hedit & Hdelete & _); [reflexivity | cbn; lia |].
  split; [apply Hdelete | apply Hedit].
Defined.

(** X11.  Whatever its outcome, an operation adds to the effects either
    nothing or exactly one write to the store followed by exactly one
    event, and the event goes to the acting user alone, in the user's
    realm.  It adds nothing exactly when it fails: no event without a
    write, no write without its event, and nothing on failure. *)
Theorem one_write_then_one_event `{C : Collaborators} (u : UserProfile.t) (w : World) :
  (forall ds, exists added,
     effects (snd (do_create_drafts ds u w)) = (effects w ++ added)%list
     /\ one_write_one_event u added
     /\ (added = [] <-> exists e, fst (do_create_drafts ds u w) = inl e))
  /\ (forall draft_id d, exists added,
        effects (snd (do_edit_draft draft_id d u w)) = (effects w ++ added)%list
        /\ one_write_one_event u added
        /\ (added = [] <-> exists e, fst (do_edit_draft draft_id d u w) = inl e))
  /\ (forall draft_id, exists added,
        effects (snd (do_delete_draft draft_id u w)) = (effects w ++ added)%list
        /\ one_write_one_event u added
        /\ (added = [] <-> exists e, fst (do_delete_draft draft_id u w) = inl e)).
Proof.
  assert (Hfail : forall added : list Effect, added = [] ->
            (effects w = effects w ++ added)%list /\ one_write_one_event u added).
  { intros added ->. rewrite app_nil_r. split; [reflexivity | now left]. }
  split; [| split].
  - intros ds.
    destruct (do_create_drafts_cases ds u w) as [(e & n & ->) | (objs & n & ->)]; cbn.
    + exists []. destruct (Hfail [] eq_refl). repeat split; eauto.
    + eexists [_; _]. rewrite <- app_assoc. split; [reflexivity |]. split.
      * right. do 2 eexists. split; [| reflexivity]. exact I.
      * split; [discriminate | intros [e He]; discriminate].
  - intros draft_id d.
    destruct (objects_get draft_id u w) as [obj |] eqn:Hget.
    + rewrite (edit_found draft_id d u w obj Hget).
      destruct (fst (further_validated_draft_dict d u w)) as [e | v]; cbn.
      * exists []. destruct (Hfail [] eq_refl). repeat split; eauto.
      * eexists [_; _]. rewrite <- app_assoc. split; [reflexivity |]. split.
        -- right. do 2 eexists. split; [| reflexivity]. exact I.
        -- split; [discriminate | intros [e He]; discriminate].
    + rewrite (edit_not_found draft_id d u w Hget). cbn.
      exists []. destruct (Hfail [] eq_refl). repeat split; eauto.
  - intros draft_id.
    destruct (objects_get draft_id u w) as [obj |] eqn:Hget.
    + rewrite (delete_found draft_id u w obj Hget). cbn.
      eexists [_; _]. rewrite <- app_assoc. split; [reflexivity |]. split.
      * right. do 2 eexists. split; [| reflexivity]. exact I.
      * split; [discriminate | intros [e He]; discriminate].
    + rewrite (delete_not_found draft_id u w Hget). cbn.
      exists []. destruct (Hfail [] eq_refl). repeat split; eauto.
Qed.

Lemma one_write_then_one_event_witness :
  exists added,
    effects (snd (do_delete_draft 5 Sample.alice Sample2.world_two))
    = (effects Sample2.world_two ++ added)%list
    /\ one_write_one_event Sample.alice added
    /\ added <> [].
Proof.
  destruct (one_write_then_one_event Sample.alice Sample2.world_two) as (_ & _ & Hdel).
  destruct (Hdel 5) as (added & Heff & Hshape & Hiff).
  exists added. split; [exact Heff |]. split; [exact Hshape |].
  intros Hnil. apply Hiff in Hnil as [e He]. vm_compute in He. discriminate He.
Defined.

(** ** How the mutations compose *)

Section Compose.
Context {C : Collaborators}.
Implicit Types (d : DraftDict.t) (u : UserProfile.t) (w : World).

(** The world a successful edit leaves, and the edited row in it. *)
Lemma successful_edit_world draft_id d u w row v :
  drafts w !! draft_id = Some row ->
  UserProfile.id (Draft.user_profile row) = UserProfile.id u ->
  fst (further_validated_draft_dict d u w) = inr v ->
  exists w1,
    do_edit_draft draft_id d u w = (inr tt, w1)
    /\ drafts w1 !! draft_id = Some (overwritten (Draft.with_id draft_id row) v)
    /\ drafts w1 = <[draft_id := overwritten (Draft.with_id draft_id row) v]> (drafts w).
Proof.
  intros Hrow Hown Hv.
  rewrite (edit_found draft_id d u w _ (objects_get_owned draft_id u w row Hrow Hown)), Hv.
  eexists. split; [reflexivity |]. cbn. split; [apply lookup_insert_eq | reflexivity].
Qed.
End Compose.

(** X12.  Editing is idempotent for a dict with its own timestamp: when an
    edit succeeds, the same edit made again succeeds too and leaves every
    row as the first edit left it. *)
Theorem edit_twice_same_rows `{C : Collaborators}
    (draft_id : Z) (d : DraftDict.t) (u : UserProfile.t) (w : World) (t : PyNum) :
  DraftDict.timestamp d = Some t ->
  fst (do_edit_draft draft_id d u w) = inr tt ->
  let w1 := snd (do_edit_draft draft_id d u w) in
  fst (do_edit_draft draft_id d u w1) = inr tt
  /\ drafts (snd (do_edit_draft draft_id d u w1)) = drafts w1.
Proof.
  intros Ht Hok w1. subst w1.
  destruct (objects_get draft_id u w) as [obj |] eqn:Hget;
    [| rewrite (edit_not_found draft_id d u w Hget) in Hok; discriminate Hok].
  apply objects_get_inv in Hget as (row & Hrow & Hown & ->).
  destruct (fst (further_validated_draft_dict d u w)) as [e | v] eqn:Hv.
  { rewrite (edit_found draft_id d u w _ (objects_get_owned draft_id u w row Hrow Hown)), Hv
      in Hok. discriminate Hok. }
  destruct (successful_edit_world draft_id d u w row v Hrow Hown Hv)
    as (w1 & Hw1 & Hrow1 & Hdrafts1).
  rewrite Hw1. cbn [snd].
  assert (Hv1 : fst (further_validated_draft_dict d u w1) = inr v).
  { rewrite <- Hv. apply fvdd_timestamp_only. unfold timestamp_in. now rewrite Ht. }
  rewrite (edit_found draft_id d u w1 _ (objects_get_owned draft_id u w1 _ Hrow1 Hown)), Hv1.
  cbn. split; [reflexivity |].
  rewrite Hdrafts1. apply insert_insert_eq.
Qed.

Lemma edit_twice_same_rows_witness :
  let d := Sample.stream_draft "plans" [42] (Some (PyInt 5)) in
  let w1 := snd (do_edit_draft 5 d Sample.alice Sample2.world_two) in
  fst (do_edit_draft 5 d Sample.alice w1) = inr tt
  /\ drafts (snd (do_edit_draft 5 d Sample.alice w1)) = drafts w1.
Proof.
  intros d w1.
  apply (edit_twice_same_rows 5 d Sample.alice Sample2.world_two (PyInt 5) eq_refl).
  reflexivity.
Defined.

(** X13.  Creating one draft and then deleting it brings the table back:
    when the next key of the store is free, a successful creation of a
    single draft followed by the delete of that key succeeds and leaves
    the rows exactly as they were before the creation.  The key itself is
    spent: the store does not hand it out again. *)
Theorem create_then_delete_restores `{C : Collaborators}
    (d : DraftDict.t) (u : UserProfile.t) (w : World) (created : list Draft.t) :
  drafts w !! next_id w = None ->
  fst (do_create_drafts [d] u w) = inr created ->
  let w1 := snd (do_create_drafts [d] u w) in
  let w2 := snd (do_delete_draft (next_id w) u w1) in
  fst (do_delete_draft (next_id w) u w1) = inr tt
  /\ drafts w2 = drafts w
  /\ next_id w2 = next_id w + 1.
Proof.
  intros Hfree Hc w1 w2. subst w1 w2.
  destruct (do_create_drafts_inv [d] u w created Hc) as (vs & Hlen & _ & -> & Hrows & Hnext).
  destruct vs as [| v [| ? ?]]; try discriminate Hlen. cbn in Hrows, Hnext.
  assert (Hrow : drafts (snd (do_create_drafts [d] u w)) !! next_id w
                 = Some (Draft.with_id (next_id w) (new_draft u v))).
  { rewrite Hrows. apply lookup_insert_eq. }
  rewrite (delete_found (next_id w) u _ _
             (objects_get_owned (next_id w) u _ _ Hrow eq_refl)).
  cbn. rewrite Hrows, Hnext. split; [reflexivity |]. split; [| reflexivity].
  now apply delete_insert_id.
Qed.

Lemma create_then_delete_restores_witness :
  let d := Sample.private_draft [1; 2] None in
  let w1 := snd (do_create_drafts [d] Sample.alice Sample2.world_two) in
  drafts (snd (do_delete_draft 7 Sample.alice w1)) = drafts Sample2.world_two
  /\ next_id (snd (do_delete_draft 7 Sample.alice w1)) = 8.
Proof.
  intros d w1.
  destruct (create_then_delete_restores d Sample.alice Sample2.world_two
              (assign_ids 7 [new_draft Sample.alice
                               {| ValidDraftDict.recipient_id := Some 102;
                                  ValidDraftDict.topic := "";
                                  ValidDraftDict.content := "hi";
                                  ValidDraftDict.last_edit_time := 1500000 |}])
              eq_refl eq_refl) as (_ & Hrows & Hnext).
  split; [exact Hrows | exact Hnext].
Defined.

(** X14.  Bulk creation fails fast: once a dict fails validation the dicts
    after it are never looked at.  The outcome and the world are the same
    whatever follows the failing dict, and the clock has been read once
    for each dict up to and including the failing one. *)
Theorem create_ignores_rest `{C : Collaborators}
    (pre : list DraftDict.t) (d : DraftDict.t) (u : UserProfile.t) (w : World) (e : Exn) :
  (forall (j : nat) dj, pre !! j = Some dj ->
     exists v, fst (further_validated_draft_dict dj u (advance j w)) = inr v) ->
  fst (further_validated_draft_dict d u (advance (length pre) w)) = inl e ->
  forall post,
    do_create_drafts (pre ++ d :: post) u w = do_create_drafts (pre ++ [d]) u w
    /\ fst (do_create_drafts (pre ++ d :: post) u w) = inl e
    /\ clock_reads (snd (do_create_drafts (pre ++ d :: post) u w))
       = (S (length pre) + clock_reads w)%nat.
Proof.
  intros Hpre Hfail.
  assert (Heq : forall post,
            do_create_drafts (pre ++ d :: post) u w = (inl e, advance (S (length pre)) w)).
  { intros post. unfold do_create_drafts, bind.
    rewrite (append_validated_fails (pre ++ d :: post) u (length pre) d e [] w).
    - reflexivity.
    - rewrite lookup_app_r by lia. now rewrite Nat.sub_diag.
    - intros j dj Hj Hdj. rewrite lookup_app_l in Hdj by lia. now apply (Hpre j dj).
    - exact Hfail. }
  intros post. rewrite (Heq post), (Heq []). repeat split.
Qed.

Lemma create_ignores_rest_witness :
  let pre := [Sample.stream_draft "plans" [42] None] in
  let d := Sample.private_draft [] None in
  let post := [Sample.stream_draft "later" [43] None] in
  do_create_drafts (pre ++ d :: post) Sample.alice Sample.world
  = do_create_drafts (pre ++ [d]) Sample.alice Sample.world
  /\ fst (do_create_drafts (pre ++ d :: post) Sample.alice Sample.world)
     = inl InvalidTimestamp
  /\ clock_reads (snd (do_create_drafts (pre ++ d :: post) Sample.alice Sample.world))
     = 2%nat.
Proof.
  intros pre d post.
  apply (create_ignores_rest pre d Sample.alice Sample.world InvalidTimestamp).
  - intros j dj Hdj. destruct j as [| j]; [| destruct j; discriminate Hdj].
    injection Hdj as <-. eexists. vm_compute. reflexivity.
  - vm_compute. reflexivity.
Defined.

(** ** Content and time of a result *)

(** X15.  Every successful result, whatever the type of the dict, carries
    the normalised content of the dict and the time made from the rounded
    timestamp; a dict without a timestamp gets the reading of the clock
    taken by this very call, and fails with the timestamp error when that
    reading rounds to a negative number. *)
Theorem result_content_and_time `{C : Collaborators}
    (d : DraftDict.t) (u : UserProfile.t) (w : World) :
  (forall v,
     fst (further_validated_draft_dict d u w) = inr v ->
     ValidDraftDict.content v = normalize_body (DraftDict.content d)
     /\ ValidDraftDict.last_edit_time v
        = timestamp_to_datetime
            (round6 match DraftDict.timestamp d with
                    | Some t => t
                    | None => PyFloat (wall_clock w (clock_reads w))
                    end))
  /\ (DraftDict.timestamp d = None ->
      num_lt0 (PyFloat (float_round6 (wall_clock w (clock_reads w)))) = true ->
      fst (further_validated_draft_dict d u w) = inl InvalidTimestamp).
Proof.
  split.
  - intros v Hv. destruct (fvdd_last_edit_time d u w v Hv) as [Ht Hc]. now split.
  - intros Hnone Hneg. apply fvdd_negative. unfold timestamp_in. now rewrite Hnone.
Qed.

Lemma result_content_and_time_witness :
  let d := Sample.private_draft [] None in
  fst (further_validated_draft_dict d Sample.alice (advance 1 Sample.world))
  = inl InvalidTimestamp
  /\ forall v,
       fst (further_validated_draft_dict d Sample.alice Sample.world) = inr v ->
       ValidDraftDict.last_edit_time v = 1500000.
Proof.
  intros d. split.
  - apply (result_content_and_time d Sample.alice (advance 1 Sample.world)); reflexivity.
  - intros v Hv.
    destruct (proj1 (result_content_and_time d Sample.alice Sample.world) v Hv) as [_ Ht].
    rewrite Ht. vm_compute. reflexivity.
Defined.

(** X16.  Float timestamps that are not finite numbers: rounding leaves
    NaN, the infinities and the zeros as they are, so minus infinity is
    rejected with the timestamp error, while NaN, plus infinity and both
    zeros pass the sign test and reach [timestamp_to_datetime] unchanged. *)
Theorem special_float_timestamps `{C : Collaborators}
    (d : DraftDict.t) (u : UserProfile.t) (w : World) (f : spec_float) :
  DraftDict.timestamp d = Some (PyFloat f) ->
  (f = S754_infinity true ->
   fst (further_validated_draft_dict d u w) = inl InvalidTimestamp)
  /\ (f = S754_nan \/ f = S754_infinity false \/ (exists s, f = S754_zero s) ->
      num_lt0 (round6 (PyFloat f)) = false
      /\ forall v, fst (further_validated_draft_dict d u w) = inr v ->
           ValidDraftDict.last_edit_time v = timestamp_to_datetime (PyFloat f)).
Proof.
  intros Ht.
  assert (Hin : timestamp_in d w = PyFloat f) by (unfold timestamp_in; now rewrite Ht).
  split.
  - intros ->. apply fvdd_negative. now rewrite Hin.
  - intros Hf.
    assert (Hround : round6 (PyFloat f) = PyFloat f)
      by (destruct Hf as [-> | [-> | [s ->]]]; reflexivity).
    split.
    + rewrite Hround. destruct Hf as [-> | [-> | [s ->]]]; reflexivity.
    + intros v Hv. apply fvdd_last_edit_time in Hv as [Hv _].
      now rewrite Hin, Hround in Hv.
Qed.

Lemma special_float_timestamps_witness :
  let d := Sample.private_draft [] (Some (PyFloat S754_nan)) in
  exists v, fst (further_validated_draft_dict d Sample.alice Sample.world) = inr v
            /\ ValidDraftDict.last_edit_time v = 0.
Proof.
  intros d.
  pose (v := {| ValidDraftDict.recipient_id := None; ValidDraftDict.topic := "";
                ValidDraftDict.content := "hi"; ValidDraftDict.last_edit_time := 0 |}).
  exists v. split; [reflexivity |].
  destruct (special_float_timestamps d Sample.alice Sample.world S754_nan eq_refl)
    as [_ Hpass].
  destruct (Hpass (or_introl eq_refl)) as [_ Hlast].
  rewrite (Hlast v eq_refl). reflexivity.
Defined.
